(** * GeradorRelatorio: a shallow embedding of the report generator

    The development follows [src/GeradorRelatorio.py]: the helpers
    [mapear_linha], [limpar_numero] and [identificar_coluna], the column
    validation of the main script, the aggregation by line and team
    ([prod_agg], [ret_agg], [df_final]), [adicionar_linha_geral], the final
    table [df_tabela_final] and the reason drill-down ([df_spec],
    [spec_final]).

    Modelling conventions.
    - Python [str] values are Rocq strings (sequences of 8-bit characters; a
      non-ASCII literal such as 'Média Geral' is its UTF-8 byte sequence,
      whose byte order agrees with code point order).  [lower], [strip],
      the digits of [\d] and of [int] and [float] are those of the ASCII
      range; [int] has no limit on the number of digits.
    - A [float] is either a finite value, given by the exact rational it
      denotes, or one of [inf], [-inf], [nan].  Rounding, the finite range of
      binary64 (overflow to infinity, the OverflowError of [float(int)]) and
      the sign of zero are not modelled.
    - An exception is a value [Raise e]; [try ... except:] is [try_except].
    - A data frame is the list of its rows; a row is a record of the cells
      of the columns the script uses.  Team and reason cells are strings or
      null. *)

From Stdlib Require Import ZArith QArith Qcanon String Ascii List Lia Bool.
From Stdlib Require Import Sorting.Sorted Sorting.Permutation.
From stdpp Require Import base gmap strings list numbers.
Import ListNotations.

Open Scope string_scope.

#[local] Arguments String.append !_ _ / : simpl nomatch.

(** ** Python strings *)

Module PyStr.

Definition code (c : ascii) : N := N_of_ascii c.

(** [str.isspace] on the ASCII range: TAB..CR, FS..US and the space. *)
Definition is_space (c : ascii) : bool :=
  ((9 <=? code c) && (code c <=? 13) || (28 <=? code c) && (code c <=? 32))%N.

Definition is_digit (c : ascii) : bool :=
  ((48 <=? code c) && (code c <=? 57))%N.

Definition lower_char (c : ascii) : ascii :=
  if ((65 <=? code c) && (code c <=? 90))%N
  then ascii_of_N (code c + 32) else c.

(** [s.lower()] *)
Fixpoint lower (s : string) : string :=
  match s with
  | EmptyString => EmptyString
  | String c r => String (lower_char c) (lower r)
  end.

Fixpoint lstrip (s : string) : string :=
  match s with
  | EmptyString => EmptyString
  | String c r => if is_space c then lstrip r else s
  end.

Fixpoint rstrip (s : string) : string :=
  match s with
  | EmptyString => EmptyString
  | String c r =>
      let r' := rstrip r in
      if is_space c && String.eqb r' "" then "" else String c r'
  end.

(** [s.strip()] *)
Definition strip (s : string) : string := rstrip (lstrip s).

(** [kw in s] *)
Fixpoint contains (kw s : string) : bool :=
  String.prefix kw s ||
  match s with
  | EmptyString => false
  | String _ r => contains kw r
  end.

(** [s.replace(old, new)] for a non-empty [old]: the occurrences are
    replaced from left to right without overlap; [skip] counts the
    characters of a matched occurrence that remain to be consumed. *)
Fixpoint replace_aux (old new s : string) (skip : nat) : string :=
  match s with
  | EmptyString => EmptyString
  | String c r =>
      match skip with
      | S k => replace_aux old new r k
      | O =>
          if String.prefix old s
          then new ++ replace_aux old new r (String.length old - 1)
          else String c (replace_aux old new r 0)
      end
  end.

Definition replace (old new s : string) : string := replace_aux old new s 0.

(** [re.findall(r'\d+', s)]: the maximal runs of decimal digits, in order.
    [run] is the run being read. *)
Fixpoint findall_digits_aux (s run : string) : list string :=
  match s with
  | EmptyString => if String.eqb run "" then [] else [run]
  | String c r =>
      if is_digit c then findall_digits_aux r (run ++ String c "")
      else (if String.eqb run "" then [] else [run]) ++ findall_digits_aux r ""
  end.

Definition findall_digits (s : string) : list string := findall_digits_aux s "".

Definition digit_value (c : ascii) : Z := Z.of_N (code c) - 48.

(** The number denoted by a string of decimal digits, read from the left
    with accumulator [acc]. *)
Fixpoint digits_value (s : string) (acc : Z) : Z :=
  match s with
  | EmptyString => acc
  | String c r => digits_value r (10 * acc + digit_value c)
  end.

Fixpoint all_digits (s : string) : bool :=
  match s with
  | EmptyString => true
  | String c r => is_digit c && all_digits r
  end.

(** Decimal rendering of a natural number, [fuel] bounding the digits. *)
Fixpoint nat_digits (fuel : nat) (n : N) (acc : string) : string :=
  match fuel with
  | O => acc
  | S k =>
      let acc' := String (ascii_of_N (48 + n mod 10)) acc in
      if (n / 10 =? 0)%N then acc' else nat_digits k (n / 10) acc'
  end.

(** [str(z)] for an [int]. *)
Definition str_of_Z (z : Z) : string :=
  let n := Z.to_N (Z.abs z) in
  let d := nat_digits (S (N.to_nat (N.log2 n))) n "" in
  if (z <? 0)%Z then String "-" d else d.

End PyStr.

(** ** Python floats *)

Module PyFloat.

Inductive pyfloat : Type :=
| Fin (q : Qc)
| PInf
| NInf
| NaN.

Definition qz (z : Z) : Qc := Q2Qc (inject_Z z).

Definition fzero : pyfloat := Fin (qz 0).
Definition hundred : pyfloat := Fin (qz 100).

Definition qc_ltb (a b : Qc) : bool := if Qclt_le_dec a b then true else false.
Definition qc_eqb (a b : Qc) : bool := if Qc_eq_dec a b then true else false.

Definition is_nan (x : pyfloat) : bool :=
  match x with NaN => true | _ => false end.

Definition fopp (x : pyfloat) : pyfloat :=
  match x with
  | Fin q => Fin (- q)%Qc
  | PInf => NInf
  | NInf => PInf
  | NaN => NaN
  end.

Definition fadd (x y : pyfloat) : pyfloat :=
  match x, y with
  | NaN, _ | _, NaN => NaN
  | PInf, NInf | NInf, PInf => NaN
  | PInf, _ | _, PInf => PInf
  | NInf, _ | _, NInf => NInf
  | Fin a, Fin b => Fin (a + b)%Qc
  end.

Definition fsub (x y : pyfloat) : pyfloat := fadd x (fopp y).

(** Sign of a value that is not [nan]: [Lt] negative, [Eq] zero, [Gt]
    positive. *)
Definition fsign (x : pyfloat) : comparison :=
  match x with
  | Fin q => if qc_ltb q (qz 0) then Lt else if qc_eqb q (qz 0) then Eq else Gt
  | PInf => Gt
  | NInf => Lt
  | NaN => Eq
  end.

Definition inf_of_sign (s : comparison) : pyfloat :=
  match s with Lt => NInf | Gt => PInf | Eq => NaN end.

Definition mul_sign (s t : comparison) : comparison :=
  match s, t with
  | Eq, _ | _, Eq => Eq
  | Lt, Lt | Gt, Gt => Gt
  | _, _ => Lt
  end.

Definition fmul (x y : pyfloat) : pyfloat :=
  match x, y with
  | NaN, _ | _, NaN => NaN
  | Fin a, Fin b => Fin (a * b)%Qc
  | _, _ => inf_of_sign (mul_sign (fsign x) (fsign y))
  end.

(** Division of float64 arrays and scalars (numpy): a zero divisor gives
    an infinity or [nan], never an exception. *)
Definition fdiv (x y : pyfloat) : pyfloat :=
  match x, y with
  | NaN, _ | _, NaN => NaN
  | Fin a, Fin b =>
      if qc_eqb b (qz 0) then inf_of_sign (fsign x) else Fin (a / b)%Qc
  | Fin _, _ => fzero
  | _, Fin b => if qc_ltb b (qz 0) then fopp x else x
  | _, _ => NaN
  end.

(** [x < y], [x > y] and [x <= y]; every comparison with [nan] is false. *)
Definition fltb (x y : pyfloat) : bool :=
  match x, y with
  | NaN, _ | _, NaN => false
  | Fin a, Fin b => qc_ltb a b
  | PInf, _ => false
  | _, NInf => false
  | _, _ => true
  end.

Definition fgtb (x y : pyfloat) : bool := fltb y x.

Definition feqb (x y : pyfloat) : bool :=
  match x, y with
  | Fin a, Fin b => qc_eqb a b
  | PInf, PInf | NInf, NInf => true
  | _, _ => false
  end.

Definition fleb (x y : pyfloat) : bool := fltb x y || feqb x y.

(** [Series.sum()] and the group-wise [sum()]: [nan] entries are skipped
    and the empty sum is 0. *)
Definition fsum (l : list pyfloat) : pyfloat :=
  foldr fadd fzero (List.filter (fun x => negb (is_nan x)) l).

(** [fillna(0)] on a numeric cell. *)
Definition fillna0 (x : pyfloat) : pyfloat := if is_nan x then fzero else x.

(** Ten to the power [e]. *)
Definition pow10 (e : Z) : Qc :=
  if (0 <=? e)%Z then qz (10 ^ e) else (/ qz (10 ^ (- e)))%Qc.

End PyFloat.
Export PyFloat.

(** ** Cells, exceptions and the conversions of Python *)

(** A cell of a data frame: a null ([None]), a [bool], an [int], a [float]
    (NaN included), a [str], or any other object that is not null, of which
    only [str(...)] is ever used. *)
Inductive pyval : Type :=
| PNone
| PBool (b : bool)
| PInt (z : Z)
| PFloat (f : pyfloat)
| PStr (s : string)
| PObj (s : string).

Inductive exn : Type := ValueError | TypeError.

Inductive exc (A : Type) : Type :=
| Ok (a : A)
| Raise (e : exn).
Arguments Ok {A} a.
Arguments Raise {A} e.

Definition bind {A B : Type} (m : exc A) (k : A -> exc B) : exc B :=
  match m with
  | Ok a => k a
  | Raise e => Raise e
  end.

Notation "'let*' x ':=' m 'in' k" := (bind m (fun x => k))
  (at level 10, x name, m at level 100, k at level 200).

(** [try: body except: handler] *)
Definition try_except {A : Type} (body handler : exc A) : exc A :=
  match body with
  | Ok a => Ok a
  | Raise _ => handler
  end.

(** [pd.isna(val)] on a scalar cell. *)
Definition pd_isna (val : pyval) : bool :=
  match val with
  | PNone => true
  | PFloat f => is_nan f
  | _ => false
  end.

(** [isinstance(val, (int, float))]; a [bool] is an [int]. *)
Definition isinstance_int_float (val : pyval) : bool :=
  match val with
  | PBool _ | PInt _ | PFloat _ => true
  | _ => false
  end.

(** [int(s)] for the strings it is applied to here, matches of [\d+]. *)
Definition py_int (s : string) : exc Z :=
  if PyStr.all_digits s && negb (String.eqb s "")
  then Ok (PyStr.digits_value s 0) else Raise ValueError.

(** *** [float(s)] for a string *)

(** A [digitpart]: digits, optionally separated by single underscores.
    Returns the digits read and the rest of the input. *)
Fixpoint digitpart_aux (s : string) (after_digit : bool) : string * string :=
  match s with
  | EmptyString => ("", s)
  | String c r =>
      if PyStr.is_digit c then
        let '(d, r') := digitpart_aux r true in (String c d, r')
      else if after_digit && Ascii.eqb c "_" then
        match r with
        | String c2 _ =>
            if PyStr.is_digit c2 then digitpart_aux r false else ("", s)
        | EmptyString => ("", s)
        end
      else ("", s)
  end.

Definition digitpart (s : string) : string * string := digitpart_aux s false.

(** [[digitpart] "." digitpart | digitpart ["."]], then an optional exponent;
    the result is a mantissa and a power of ten. *)
Definition parse_floatnumber (s : string) : option (Z * Z) :=
  let '(ip, r1) := digitpart s in
  let '(fp, r2, ok) :=
    match r1 with
    | String "."%char r =>
        let '(fp, r') := digitpart r in
        (fp, r', negb (String.eqb ip "" && String.eqb fp ""))
    | _ => ("", r1, negb (String.eqb ip ""))
    end in
  let mant := PyStr.digits_value (ip ++ fp) 0 in
  let scale := Z.of_nat (String.length fp) in
  if ok then
    match r2 with
    | EmptyString => Some (mant, - scale)%Z
    | String c r3 =>
        if Ascii.eqb c "e" || Ascii.eqb c "E" then
          let '(sg, r4) :=
            match r3 with
            | String "+"%char r => (1%Z, r)
            | String "-"%char r => ((-1)%Z, r)
            | _ => (1%Z, r3)
            end in
          let '(ed, r5) := digitpart r4 in
          if negb (String.eqb ed "") && String.eqb r5 ""
          then Some (mant, sg * PyStr.digits_value ed 0 - scale)%Z
          else None
        else None
    end
  else None.

(** [[sign] (floatnumber | infinity | nan)] after stripping whitespace. *)
Definition py_float_of_str (s : string) : exc pyfloat :=
  let s1 := PyStr.strip s in
  let '(neg, body) :=
    match s1 with
    | String "+"%char r => (false, r)
    | String "-"%char r => (true, r)
    | _ => (false, s1)
    end in
  let signed (x : pyfloat) := if neg then fopp x else x in
  let lb := PyStr.lower body in
  if String.eqb lb "inf" || String.eqb lb "infinity" then Ok (signed PInf)
  else if String.eqb lb "nan" then Ok NaN
  else
    match parse_floatnumber body with
    | Some (m, e) => Ok (signed (Fin (qz m * pow10 e)%Qc))
    | None => Raise ValueError
    end.

(** [float(val)] for a [bool], an [int] or a [float]. *)
Definition py_float_of_num (val : pyval) : exc pyfloat :=
  match val with
  | PBool b => Ok (Fin (qz (if b then 1 else 0)))
  | PInt z => Ok (Fin (qz z))
  | PFloat f => Ok f
  | _ => Raise ValueError
  end.

Section Celulas.

(** [repr] of a float is CPython's shortest round-trip rendering; it is
    taken as a parameter. *)
Variable float_repr : pyfloat -> string.

(** [str(val)] *)
Definition py_str (val : pyval) : string :=
  match val with
  | PNone => "None"
  | PBool b => if b then "True" else "False"
  | PInt z => PyStr.str_of_Z z
  | PFloat f => float_repr f
  | PStr s => s
  | PObj s => s
  end.

(** [mapear_linha], lines 28-41. *)
Definition mapear_linha (forno : pyval) : exc string :=
  try_except
    (let nums := PyStr.findall_digits (py_str forno) in
     match nums with
     | n0 :: _ =>
         let* forno_int := py_int n0 in
         if (Z.eqb forno_int 10 || Z.eqb forno_int 11) then Ok "Linha 4 e 5"
         else if (Z.eqb forno_int 12 || Z.eqb forno_int 13) then Ok "Linha 6"
         else Ok "Outros"
     | [] => Ok "Outros"
     end)
    (Ok "Outros").

(** [limpar_numero], lines 43-50. *)
Definition limpar_numero (val : pyval) : exc pyfloat :=
  if pd_isna val then Ok fzero
  else if isinstance_int_float val then py_float_of_num val
  else
    let val1 :=
      PyStr.replace " " "" (PyStr.replace "R$" "" (PyStr.strip (py_str val))) in
    let val2 := PyStr.replace "," "." (PyStr.replace "." "" val1) in
    try_except (py_float_of_str val2) (Ok fzero).

End Celulas.

(** ** Column identification *)

(** [c.lower().strip()] *)
Definition normalizar (c : string) : string := PyStr.strip (PyStr.lower c).

(** The inner loop of [identificar_coluna]: the first normalised column
    name that contains [kw]. *)
Fixpoint primeira_coluna (kw : string) (colunas_df : list string) : option string :=
  match colunas_df with
  | [] => None
  | col :: r => if PyStr.contains kw col then Some col else primeira_coluna kw r
  end.

(** The dictionary comprehension [{c.lower().strip(): c for c in df.columns}]:
    a later column overwrites an earlier one with the same key. *)
Definition mapa_cols (columns : list string) : gmap string string :=
  foldl (fun m c => <[normalizar c := c]> m) ∅ columns.

(** The outer loop over the keywords. *)
Fixpoint percorrer_keywords (mapa : gmap string string) (colunas_df keywords : list string)
  : option string :=
  match keywords with
  | [] => None
  | kw :: r =>
      match primeira_coluna kw colunas_df with
      | Some col => mapa !! col
      | None => percorrer_keywords mapa colunas_df r
      end
  end.

(** [identificar_coluna], lines 59-72; [None] is Python's [None]. *)
Definition identificar_coluna (columns keywords : list string)
  (nome_padrao_exibicao : string) : option string :=
  let colunas_df := map normalizar columns in
  percorrer_keywords (mapa_cols columns) colunas_df keywords.

(** ** Data frames *)

(** The bound cells of a row of the production file and of the retained
    file (lines 198-212). *)
Record linha_producao : Type := {
  p_equipe : option string;
  p_forno : pyval;
  p_metragem : pyval
}.

Record linha_retidos : Type := {
  r_motivo : option string;
  r_m2 : pyval;
  r_equipe : option string;
  r_forno : pyval
}.

(** The same rows with the derived columns ['metragem_real'], ['m2_real']
    and ['Linha'] (lines 230-239). *)
Record prod_row : Type := {
  pr_Equipe : option string;
  pr_Linha : string;
  pr_metragem_real : pyfloat
}.

Record ret_row : Type := {
  rr_motivo : option string;
  rr_Equipe : option string;
  rr_Linha : string;
  rr_m2_real : pyfloat
}.

(** A row of [df_final]. *)
Record agg_row : Type := {
  Linha : string;
  Equipe : string;
  M2_Produzido : pyfloat;
  M2_Retido : pyfloat;
  Meta_M2 : pyfloat;
  Saldo_M2 : pyfloat;
  Pct_Realizado : pyfloat
}.

(** A row returned by [adicionar_linha_geral], and a row of
    [df_tabela_final], which has the ['Status'] column as well. *)
Record geral_row : Type := { g_dados : agg_row; g_Ordem : Z }.
Record tab_row : Type := { t_dados : agg_row; t_Ordem : Z; t_Status : string }.

(** A row of [spec_final]. *)
Record spec_row : Type := {
  s_Equipe : string;
  s_M2_Retido : pyfloat;
  s_Qtd_Ocorrencias : Z
}.

Fixpoint mapM {A B : Type} (f : A -> exc B) (l : list A) : exc (list B) :=
  match l with
  | [] => Ok []
  | x :: r => let* y := f x in let* ys := mapM f r in Ok (y :: ys)
  end.

Section Tratamento.

Variable float_repr : pyfloat -> string.

Definition tratar_linha_producao (r : linha_producao) : exc prod_row :=
  let* m := limpar_numero float_repr (p_metragem r) in
  let* l := mapear_linha float_repr (p_forno r) in
  Ok {| pr_Equipe := p_equipe r; pr_Linha := l; pr_metragem_real := m |}.

Definition tratar_linha_retidos (r : linha_retidos) : exc ret_row :=
  let* m := limpar_numero float_repr (r_m2 r) in
  let* l := mapear_linha float_repr (r_forno r) in
  Ok {| rr_motivo := r_motivo r; rr_Equipe := r_equipe r;
        rr_Linha := l; rr_m2_real := m |}.

Definition tratar_producao : list linha_producao -> exc (list prod_row) :=
  mapM tratar_linha_producao.

Definition tratar_retidos : list linha_retidos -> exc (list ret_row) :=
  mapM tratar_linha_retidos.

End Tratamento.

(** *** Sorting and grouping *)

(** A stable insertion sort: [x] goes before the first element that is not
    below it. *)
Fixpoint inserir {A : Type} (fleb : A -> A -> bool) (x : A) (l : list A) : list A :=
  match l with
  | [] => [x]
  | y :: r => if fleb x y then x :: l else y :: inserir fleb x r
  end.

Definition ordenar {A : Type} (fleb : A -> A -> bool) (l : list A) : list A :=
  foldr (inserir fleb) [] l.

Definition chave : Type := string * string.

(** Order of the group keys [(Linha, Equipe)]. *)
Definition chave_leb (a b : chave) : bool :=
  match String.compare (fst a) (fst b) with
  | Lt => true
  | Gt => false
  | Eq => String.leb (snd a) (snd b)
  end.

(** [df.groupby(keys)[val].sum().reset_index()]: rows with a null key are
    dropped, the groups come out sorted by key. *)
Definition groupby_sum {A K : Type} `{EqDecision K} (fleb : K -> K -> bool)
  (key : A -> option K) (val : A -> pyfloat) (df : list A) : list (K * pyfloat) :=
  map (fun k =>
         (k, fsum
               (map val (List.filter (fun r => bool_decide (key r = Some k)) df))))
      (ordenar fleb (remove_dups (omap key df))).

(** [df.groupby(key).size().reset_index()] *)
Definition groupby_size {A K : Type} `{EqDecision K} (fleb : K -> K -> bool)
  (key : A -> option K) (df : list A) : list (K * Z) :=
  map (fun k =>
         (k, Z.of_nat
               (length (List.filter (fun r => bool_decide (key r = Some k)) df))))
      (ordenar fleb (remove_dups (omap key df))).

(** The value joined from the right table of a left merge. *)
Fixpoint procurar {K V : Type} `{EqDecision K} (k : K) (l : list (K * V)) : option V :=
  match l with
  | [] => None
  | (k', v) :: r => if bool_decide (k' = k) then Some v else procurar k r
  end.

Definition chave_prod (r : prod_row) : option chave :=
  match pr_Equipe r with
  | Some e => Some (pr_Linha r, e)
  | None => None
  end.

Definition chave_ret (r : ret_row) : option chave :=
  match rr_Equipe r with
  | Some e => Some (rr_Linha r, e)
  | None => None
  end.

(** Line 261: the rows kept by the exclusion filter. *)
Definition isin (m : option string) (motivos : list string) : bool :=
  match m with
  | Some s => existsb (String.eqb s) motivos
  | None => false
  end.

Definition filtrar_motivos (motivos_excluir : list string) (df_ret : list ret_row)
  : list ret_row :=
  match motivos_excluir with
  | [] => df_ret
  | _ => List.filter (fun r => negb (isin (rr_motivo r) motivos_excluir)) df_ret
  end.

(** Lines 289-295: [prod_agg], [ret_agg], the left merge with [fillna(0)]
    and the derived columns. *)
Definition prod_agg (df_prod : list prod_row) : list (chave * pyfloat) :=
  groupby_sum chave_leb chave_prod pr_metragem_real df_prod.

Definition ret_agg (df_ret_filtrado : list ret_row) : list (chave * pyfloat) :=
  groupby_sum chave_leb chave_ret rr_m2_real df_ret_filtrado.

Definition linha_final (META_PCT : pyfloat) (ret : list (chave * pyfloat))
  (p : chave * pyfloat) : agg_row :=
  let produzido := fillna0 (snd p) in
  let retido :=
    fillna0 (match procurar (fst p) ret with Some v => v | None => NaN end) in
  let meta := fmul produzido (fdiv META_PCT hundred) in
  {| Linha := fst (fst p); Equipe := snd (fst p);
     M2_Produzido := produzido; M2_Retido := retido;
     Meta_M2 := meta; Saldo_M2 := fsub meta retido;
     Pct_Realizado := fmul (fdiv retido produzido) hundred |}.

Definition calcular_df_final (META_PCT : pyfloat) (df_prod : list prod_row)
  (df_ret_filtrado : list ret_row) : list agg_row :=
  map (linha_final META_PCT (ret_agg df_ret_filtrado)) (prod_agg df_prod).

(** *** [adicionar_linha_geral], lines 89-109 *)

Definition media_geral : string := "Média Geral".

Definition ordem (equipe : string) : Z :=
  if String.eqb equipe media_geral then 1 else 0.

(** The order of [sort_values(by=['Ordem', 'Equipe'])]; the sort is stable,
    as [ordenar] is. *)
Definition geral_leb (a b : geral_row) : bool :=
  if (g_Ordem a <? g_Ordem b)%Z then true
  else if (g_Ordem b <? g_Ordem a)%Z then false
  else String.leb (Equipe (g_dados a)) (Equipe (g_dados b)).

Definition adicionar_linha_geral (df_original : list agg_row) (nome_linha : string)
  (meta_pct : pyfloat) : list geral_row :=
  let df_filt := List.filter (fun r => String.eqb (Linha r) nome_linha) df_original in
  match df_filt with
  | [] => []
  | _ =>
      let total_prod := fsum (map M2_Produzido df_filt) in
      let total_ret := fsum (map M2_Retido df_filt) in
      let meta_m2_total := fmul total_prod (fdiv meta_pct hundred) in
      let saldo_total := fsub meta_m2_total total_ret in
      let pct_geral :=
        if fgtb total_prod fzero then fmul (fdiv total_ret total_prod) hundred else fzero in
      let row_geral :=
        {| Linha := nome_linha; Equipe := media_geral;
           M2_Produzido := total_prod; M2_Retido := total_ret;
           Meta_M2 := meta_m2_total; Saldo_M2 := saldo_total;
           Pct_Realizado := pct_geral |} in
      let df_final := (df_filt ++ [row_geral])%list in
      ordenar geral_leb
        (map (fun r => {| g_dados := r; g_Ordem := ordem (Equipe r) |}) df_final)
  end.

(** Lines 300-304: the status column and [df_tabela_final]. *)
Definition definir_status_meta (META_PCT valor_pct : pyfloat) : string :=
  if fleb valor_pct META_PCT then "Dentro da Meta (Verde)" else "Fora da Meta (Vermelho)".

Definition com_status (META_PCT : pyfloat) (r : geral_row) : tab_row :=
  {| t_dados := g_dados r; t_Ordem := g_Ordem r;
     t_Status := definir_status_meta META_PCT (Pct_Realizado (g_dados r)) |}.

Definition calcular_df_tabela_final (META_PCT : pyfloat) (df_final : list agg_row)
  : list tab_row :=
  map (com_status META_PCT) (adicionar_linha_geral df_final "Linha 4 e 5" META_PCT)
  ++ map (com_status META_PCT) (adicionar_linha_geral df_final "Linha 6" META_PCT).

(** *** The reason drill-down, lines 399-407 *)

(** [sorted(df_prod[col_equipe_p].unique())]: comparing a null with a
    string raises [TypeError]; a column with a null team is reported as that
    exception. *)
Fixpoint sem_nulos (l : list (option string)) : exc (list string) :=
  match l with
  | [] => Ok []
  | Some e :: r => let* es := sem_nulos r in Ok (e :: es)
  | None :: _ => Raise TypeError
  end.

Definition todas_equipes (df_prod : list prod_row) : exc (list string) :=
  let* es := sem_nulos (map pr_Equipe df_prod) in
  Ok (ordenar String.leb (remove_dups es)).

Definition calcular_df_spec (df_ret : list ret_row) (motivo_alvo : string)
  : list ret_row :=
  List.filter (fun r => bool_decide (rr_motivo r = Some motivo_alvo)) df_ret.

Definition linha_spec (spec_agg : list (string * pyfloat))
  (spec_count : list (string * Z)) (e : string) : spec_row :=
  {| s_Equipe := e;
     s_M2_Retido :=
       fillna0 (match procurar e spec_agg with Some v => v | None => NaN end);
     s_Qtd_Ocorrencias :=
       match procurar e spec_count with Some n => n | None => 0%Z end |}.

Definition calcular_spec_final (df_prod : list prod_row) (df_ret : list ret_row)
  (motivo_alvo : string) : exc (list spec_row) :=
  let df_spec := calcular_df_spec df_ret motivo_alvo in
  let* equipes := todas_equipes df_prod in
  let spec_agg := groupby_sum String.leb rr_Equipe rr_m2_real df_spec in
  let spec_count := groupby_size String.leb rr_Equipe df_spec in
  Ok (map (linha_spec spec_agg spec_count) equipes).

(** ** The main script, lines 194-306 and 398-407 *)

(** What the script shows before [st.stop()]. *)
Inductive saida : Type :=
| st_error (msg : string)
| st_warning (msg : string)
| st_info (msg : string).

(** The operator's settings read from the sidebar. *)
Record config : Type := {
  META_PCT : pyfloat;
  motivo_alvo : string;
  motivos_excluir : list string
}.

(** The tables behind the three tabs; [pn_spec_final] is [None] when no
    reason is selected. *)
Record painel : Type := {
  pn_df_final : list agg_row;
  pn_df_l45_completo : list geral_row;
  pn_df_l6_completo : list geral_row;
  pn_df_tabela_final : list tab_row;
  pn_spec_final : option (exc (list spec_row))
}.

Inductive resultado : Type :=
| Parado (msgs : list saida)
| Painel (p : painel).

(** [not col] for the result of [identificar_coluna]. *)
Definition py_not (col : option string) : bool :=
  match col with
  | None => true
  | Some c => String.eqb c ""
  end.

Definition erro_se (col : option string) (msg : string) : list string :=
  if py_not col then [msg] else [].

(** Lines 195-217: the list [erros_mapeamento]. *)
Definition erros_mapeamento (cols_prod cols_ret : list string) : list string :=
  let col_equipe_p := identificar_coluna cols_prod ["equipe"; "team"; "turno"] "Equipe" in
  let col_forno_p := identificar_coluna cols_prod ["forno"; "linha"; "maq"] "Forno/Linha" in
  let col_metragem :=
    identificar_coluna cols_prod ["metragem"; "m2"; "prod"] "Metragem/Produção" in
  let col_motivo := identificar_coluna cols_ret ["motivo"; "defeito"; "causa"] "Motivo" in
  let col_m2 :=
    identificar_coluna cols_ret ["m²"; "m2"; "metragem"; "quant"] "M2 Retido" in
  let col_equipe_r := identificar_coluna cols_ret ["equipe"; "team"; "turno"] "Equipe" in
  let col_forno_r := identificar_coluna cols_ret ["forno"; "linha"; "maq"] "Forno/Linha" in
  (erro_se col_equipe_p "Arquivo Produção: Coluna de 'Equipe' não encontrada."
   ++ erro_se col_forno_p "Arquivo Produção: Coluna de 'Forno' ou 'Linha' não encontrada."
   ++ erro_se col_metragem
        "Arquivo Produção: Coluna de 'Metragem' ou 'Produção' não encontrada."
   ++ erro_se col_motivo "Arquivo Retidos: Coluna de 'Motivo' não encontrada."
   ++ erro_se col_m2 "Arquivo Retidos: Coluna de 'M2' ou 'Metragem' não encontrada."
   ++ erro_se col_equipe_r "Arquivo Retidos: Coluna de 'Equipe' não encontrada."
   ++ erro_se col_forno_r
        "Arquivo Retidos: Coluna de 'Forno' ou 'Linha' não encontrada.")%list.

(** Lines 220-225. *)
Definition exibir_erros (erros : list string) : list saida :=
  ([st_error "⚠️ **Problemas encontrados na estrutura dos arquivos:**"]
   ++ map st_warning erros
   ++ [st_info
         "Dica: Verifique se os nomes das colunas no Excel correspondem ao esperado (ex: 'Equipe', 'M2', 'Forno')."])%list.

Definition placeholder_motivo : string := "(Selecione um motivo)".

(** The tables computed once both files are bound (lines 259-306 and
    399-407). *)
Definition calcular_painel (cfg : config) (df_prod : list prod_row)
  (df_ret : list ret_row) : painel :=
  let df_ret_filtrado := filtrar_motivos (motivos_excluir cfg) df_ret in
  let df_final := calcular_df_final (META_PCT cfg) df_prod df_ret_filtrado in
  {| pn_df_final := df_final;
     pn_df_l45_completo := adicionar_linha_geral df_final "Linha 4 e 5" (META_PCT cfg);
     pn_df_l6_completo := adicionar_linha_geral df_final "Linha 6" (META_PCT cfg);
     pn_df_tabela_final := calcular_df_tabela_final (META_PCT cfg) df_final;
     pn_spec_final :=
       if negb (String.eqb (motivo_alvo cfg) "")
          && negb (String.eqb (motivo_alvo cfg) placeholder_motivo)
       then Some (calcular_spec_final df_prod df_ret (motivo_alvo cfg))
       else None |}.

Section Principal.

Variable float_repr : pyfloat -> string.

(** The script from the column identification on, for two files that
    were read: the column names and the rows of each. *)
Definition processar (cols_prod cols_ret : list string)
  (linhas_prod : list linha_producao) (linhas_ret : list linha_retidos)
  (cfg : config) : exc resultado :=
  let erros := erros_mapeamento cols_prod cols_ret in
  match erros with
  | _ :: _ => Ok (Parado (exibir_erros erros))
  | [] =>
      let* df_prod := tratar_producao float_repr linhas_prod in
      let* df_ret := tratar_retidos float_repr linhas_ret in
      Ok (Painel (calcular_painel cfg df_prod df_ret))
  end.

End Principal.


(** ** The table figure, lines 111-129 *)

Definition vermelho : string := "#E74C3C".
Definition verde : string := "#27AE60".

(** The colour of a percentage and of a balance (lines 113-114). *)
Definition cor_pct (meta_pct v : pyfloat) : string :=
  if fgtb v meta_pct then vermelho else verde.

Definition cor_saldo (v : pyfloat) : string :=
  if fltb v fzero then vermelho else verde.

(** What [criar_tabela_grafica] computes before it builds the figure: the
    two lists of font colours, and [None] for an empty frame.  The formatted
    texts of the cells are not modelled. *)
Record cores_tabela : Type := {
  cor_texto_pct : list string;
  cor_texto_saldo : list string
}.

Definition criar_tabela_grafica (df : list agg_row) (meta_pct : pyfloat)
  : option cores_tabela :=
  match df with
  | [] => None
  | _ =>
      Some {| cor_texto_pct := map (cor_pct meta_pct) (map Pct_Realizado df);
              cor_texto_saldo := map cor_saldo (map Saldo_M2 df) |}
  end.

(** Line 306: the columns of [df_tabela_final] that are displayed. *)
Definition calcular_df_exibicao (df_tabela_final : list tab_row) : list agg_row :=
  map t_dados df_tabela_final.

(** ** The headline indicator of a line, lines 318-329 *)

(** The value shown by [st.metric] and whether it is within the target;
    [None] when the frame has no row named 'Média Geral'. *)
Definition indicador (META_PCT : pyfloat) (df_completo : list geral_row)
  : option (pyfloat * bool) :=
  match List.filter (fun r => String.eqb (Equipe (g_dados r)) media_geral) df_completo with
  | [] => None
  | row :: _ =>
      let val := Pct_Realizado (g_dados row) in
      Some (val, fleb val META_PCT)
  end.

(** *** [criar_grafico_evolucao_com_geral], lines 131-167 *)

(** The rows of the two tables with the column ['mes_ano'] of lines 231-235
    and 240-243: the month of the parsed date, null when the date cannot be
    read, or ['Sem Data'] in every row when the file has no date column.
    Parsing the dates is not modelled: the column is taken as given. *)
Record prod_mes : Type := { pm_linha : prod_row; pm_mes_ano : option string }.
Record ret_mes : Type := { rm_linha : ret_row; rm_mes_ano : option string }.

Definition sem_data : string := "Sem Data".

Definition producao_sem_data (df_prod : list prod_row) : list prod_mes :=
  map (fun r => {| pm_linha := r; pm_mes_ano := Some sem_data |}) df_prod.

Definition retidos_sem_data (df_ret : list ret_row) : list ret_mes :=
  map (fun r => {| rm_linha := r; rm_mes_ano := Some sem_data |}) df_ret.

(** A row of the table behind the chart.  The group keys are pairs
    [(mes_ano, Equipe)]. *)
Record evol_row : Type := {
  ev_mes_ano : string;
  ev_Equipe : string;
  ev_M2_Produzido : pyfloat;
  ev_M2_Retido : pyfloat;
  ev_Meta_M2 : pyfloat;
  ev_Cor_Barra : string;
  ev_Ordem_Equipe : Z;
  ev_Label_X : string
}.

Definition chave_mes (mes_ano equipe : option string) : option chave :=
  match mes_ano, equipe with
  | Some m, Some e => Some (m, e)
  | _, _ => None
  end.

(** [tot['Equipe'] = 'Média Geral'] on the totals by month. *)
Definition com_media_geral (tot : list (string * pyfloat)) : list (chave * pyfloat) :=
  map (fun p => ((fst p, media_geral), snd p)) tot.

(** [pd.merge(esq, dir, on=['mes_ano', 'Equipe'], how='outer')]: the keys of
    both tables in ascending order; a key that is missing on one side gets a
    null there, a key that is repeated gives every pair of its rows, those of
    the left table first. *)
Definition valores {K V : Type} `{EqDecision K} (k : K) (l : list (K * V)) : list V :=
  map snd (List.filter (fun p => bool_decide (fst p = k)) l).

Definition ou_nan (l : list pyfloat) : list pyfloat :=
  match l with
  | [] => [NaN]
  | _ => l
  end.

Definition merge_outer (esq dir : list (chave * pyfloat))
  : list (chave * pyfloat * pyfloat) :=
  flat_map
    (fun k =>
       flat_map (fun p => map (fun r => (k, p, r)) (ou_nan (valores k dir)))
         (ou_nan (valores k esq)))
    (ordenar chave_leb (remove_dups (map fst esq ++ map fst dir)%list)).

(** A bar of the chart with its target mark, from the quantities after
    [fillna(0)]. *)
Definition barra (meta_pct : pyfloat) (mes_ano equipe : string)
  (produzido retido : pyfloat) : evol_row :=
  let meta := fmul produzido (fdiv meta_pct hundred) in
  {| ev_mes_ano := mes_ano; ev_Equipe := equipe;
     ev_M2_Produzido := produzido; ev_M2_Retido := retido;
     ev_Meta_M2 := meta;
     ev_Cor_Barra := if fleb retido meta then verde else vermelho;
     ev_Ordem_Equipe := ordem equipe;
     ev_Label_X := mes_ano ++ " | " ++ equipe |}.

Definition linha_evolucao (meta_pct : pyfloat) (t : chave * pyfloat * pyfloat)
  : evol_row :=
  barra meta_pct (fst (fst (fst t))) (snd (fst (fst t)))
    (fillna0 (snd (fst t))) (fillna0 (snd t)).

(** The order of [sort_values(by=['mes_ano', 'Ordem_Equipe', 'Equipe'])]. *)
Definition evol_leb (a b : evol_row) : bool :=
  match String.compare (ev_mes_ano a) (ev_mes_ano b) with
  | Lt => true
  | Gt => false
  | Eq =>
      if (ev_Ordem_Equipe a <? ev_Ordem_Equipe b)%Z then true
      else if (ev_Ordem_Equipe b <? ev_Ordem_Equipe a)%Z then false
      else String.leb (ev_Equipe a) (ev_Equipe b)
  end.

(** Lines 136-147: the sums by month and team, and the sums by month
    labelled ['Média Geral'] ([pd.DataFrame()] for an empty table). *)
Definition p_eq (df_p : list prod_mes) : list (chave * pyfloat) :=
  groupby_sum chave_leb (fun r => chave_mes (pm_mes_ano r) (pr_Equipe (pm_linha r)))
    (fun r => pr_metragem_real (pm_linha r)) df_p.

Definition r_eq (df_r : list ret_mes) : list (chave * pyfloat) :=
  groupby_sum chave_leb (fun r => chave_mes (rm_mes_ano r) (rr_Equipe (rm_linha r)))
    (fun r => rr_m2_real (rm_linha r)) df_r.

Definition p_tot (df_p : list prod_mes) : list (chave * pyfloat) :=
  match df_p with
  | [] => []
  | _ =>
      com_media_geral
        (groupby_sum String.leb pm_mes_ano (fun r => pr_metragem_real (pm_linha r)) df_p)
  end.

Definition r_tot (df_r : list ret_mes) : list (chave * pyfloat) :=
  match df_r with
  | [] => []
  | _ =>
      com_media_geral
        (groupby_sum String.leb rm_mes_ano (fun r => rr_m2_real (rm_linha r)) df_r)
  end.

(** The function returns a figure; the model returns the table whose
    columns the traces of the figure plot, [None] when the function returns
    [None].  The layout of the figure is not modelled. *)
Definition criar_grafico_evolucao_com_geral (df_prod : list prod_mes)
  (df_ret : list ret_mes) (nome_linha : string) (meta_pct : pyfloat)
  : option (list evol_row) :=
  let df_p :=
    List.filter (fun r => String.eqb (pr_Linha (pm_linha r)) nome_linha) df_prod in
  let df_r :=
    List.filter (fun r => String.eqb (rr_Linha (rm_linha r)) nome_linha) df_ret in
  match df_p, df_r with
  | [], [] => None
  | _, _ =>
      let df_final :=
        map (linha_evolucao meta_pct)
          (merge_outer (p_eq df_p ++ p_tot df_p)%list (r_eq df_r ++ r_tot df_r)%list) in
      Some (ordenar evol_leb df_final)
  end.

(** Lines 372-379: the two charts of the dashboard are drawn from the
    production table and from the retained table after the exclusion
    filter. *)
Definition evolucao_do_painel (cfg : config) (df_prod : list prod_mes)
  (df_ret : list ret_mes) (nome_linha : string) : option (list evol_row) :=
  let df_ret_filtrado :=
    match motivos_excluir cfg with
    | [] => df_ret
    | _ =>
        List.filter
          (fun r => negb (isin (rr_motivo (rm_linha r)) (motivos_excluir cfg))) df_ret
    end in
  criar_grafico_evolucao_com_geral df_prod df_ret_filtrado nome_linha (META_PCT cfg).

(** *** The sidebar, lines 245-283 *)





(** [st.session_state.grupos_dict]: a dict keeps its keys in the order of
    their first insertion, and assigning to a key that is present replaces
    its value in place.  The options picked in the multiselect are taken to
    be strings. *)
Definition grupos : Type := list (string * list string).

Fixpoint dict_set (k : string) (v : list string) (d : grupos) : grupos :=
  match d with
  | [] => [(k, v)]
  | (k', v') :: r => if String.eqb k' k then (k, v) :: r else (k', v') :: dict_set k v r
  end.

Definition dict_del (k : string) (d : grupos) : grupos :=
  List.filter (fun p => negb (String.eqb (fst p) k)) d.

(** Lines 267-269: the button saves the group when a selection and a name
    were entered. *)
Definition salvar_grupo (botao : bool) (selecao : list string) (nome : string)
  (grupos_dict : grupos) : grupos :=
  if botao && negb (bool_decide (selecao = [])) && negb (String.eqb nome "")
  then dict_set nome selecao grupos_dict
  else grupos_dict.

(** Lines 272-277: the groups whose button was pressed are removed. *)
Definition remover_grupos (remover : list string) (grupos_dict : grupos) : grupos :=
  foldl (fun d r => dict_del r d) grupos_dict remover.

(** Lines 279-283. *)
Fixpoint definir_motivo (grupos_dict : grupos) (m : option string) : option string :=
  match grupos_dict with
  | [] => m
  | (g, l) :: r =>
      if (match m with Some s => existsb (String.eqb s) l | None => false end)
      then Some g
      else definir_motivo r m
  end.


(** Lines 348-353: the colour of a bar of the performance charts, looked up
    by the status of the row. *)
Definition mapa_cores : gmap string string :=
  <["Dentro da Meta (Verde)" := verde]>
    (<["Fora da Meta (Vermelho)" := vermelho]> ∅).

Definition cor_da_barra (r : tab_row) : string :=
  default "#333" (mapa_cores !! t_Status r).

Section Execucao.

Variable float_repr : pyfloat -> string.


End Execucao.

(** ** Reference definitions, written from the specification *)

(** "The first run of decimal digits found anywhere in the identifier". *)
Fixpoint prefixo_digitos (s : string) : string :=
  match s with
  | EmptyString => EmptyString
  | String c r => if PyStr.is_digit c then String c (prefixo_digitos r) else EmptyString
  end.

Fixpoint primeira_sequencia (s : string) : option string :=
  match s with
  | EmptyString => None
  | String c r =>
      if PyStr.is_digit c then Some (String c (prefixo_digitos r))
      else primeira_sequencia r
  end.

(** "Values 10, 11 -> Category A, 12, 13 -> Category B, any other value or
    no digits found -> Other". *)
Definition tabela_linha (n : option Z) : string :=
  match n with
  | Some 10%Z | Some 11%Z => "Linha 4 e 5"
  | Some 12%Z | Some 13%Z => "Linha 6"
  | _ => "Outros"
  end.

Definition classificar (s : string) : string :=
  tabela_linha (option_map (fun d => PyStr.digits_value d 0) (primeira_sequencia s)).

(** "Strip the currency marker and whitespace, remove thousands separators,
    convert the decimal separator". *)
Fixpoint remover_char (c : ascii) (s : string) : string :=
  match s with
  | EmptyString => EmptyString
  | String a r => if Ascii.eqb a c then remover_char c r else String a (remover_char c r)
  end.

Fixpoint trocar_char (c d : ascii) (s : string) : string :=
  match s with
  | EmptyString => EmptyString
  | String a r => String (if Ascii.eqb a c then d else a) (trocar_char c d r)
  end.

Definition limpeza (s : string) : string :=
  trocar_char "," "." (remover_char "." (remover_char " "
    (PyStr.replace "R$" "" (PyStr.strip s)))).

Definition valor_ou_zero (r : exc pyfloat) : pyfloat :=
  match r with
  | Ok f => f
  | Raise _ => fzero
  end.

(** "The first column, in table order, that matches the first keyword
    fragment that has any match at all"; a fragment matches a column when
    it occurs in the lower-cased, trimmed column name. *)
Definition coincide (kw c : string) : bool := PyStr.contains kw (normalizar c).

Fixpoint resolver_coluna (columns keywords : list string) : option string :=
  match keywords with
  | [] => None
  | kw :: r =>
      match List.find (coincide kw) columns with
      | Some c => Some c
      | None => resolver_coluna columns r
      end
  end.

(** The required logical fields of the two files, with the error message
    of each (lines 198-217). *)
Inductive arquivo : Type := Producao | Retidos.

Record campo : Type := {
  c_arquivo : arquivo;
  c_keywords : list string;
  c_nome : string;
  c_mensagem : string
}.

Definition campos_obrigatorios : list campo :=
  [ {| c_arquivo := Producao; c_keywords := ["equipe"; "team"; "turno"];
       c_nome := "Equipe";
       c_mensagem := "Arquivo Produção: Coluna de 'Equipe' não encontrada." |};
    {| c_arquivo := Producao; c_keywords := ["forno"; "linha"; "maq"];
       c_nome := "Forno/Linha";
       c_mensagem := "Arquivo Produção: Coluna de 'Forno' ou 'Linha' não encontrada." |};
    {| c_arquivo := Producao; c_keywords := ["metragem"; "m2"; "prod"];
       c_nome := "Metragem/Produção";
       c_mensagem :=
         "Arquivo Produção: Coluna de 'Metragem' ou 'Produção' não encontrada." |};
    {| c_arquivo := Retidos; c_keywords := ["motivo"; "defeito"; "causa"];
       c_nome := "Motivo";
       c_mensagem := "Arquivo Retidos: Coluna de 'Motivo' não encontrada." |};
    {| c_arquivo := Retidos; c_keywords := ["m²"; "m2"; "metragem"; "quant"];
       c_nome := "M2 Retido";
       c_mensagem := "Arquivo Retidos: Coluna de 'M2' ou 'Metragem' não encontrada." |};
    {| c_arquivo := Retidos; c_keywords := ["equipe"; "team"; "turno"];
       c_nome := "Equipe";
       c_mensagem := "Arquivo Retidos: Coluna de 'Equipe' não encontrada." |};
    {| c_arquivo := Retidos; c_keywords := ["forno"; "linha"; "maq"];
       c_nome := "Forno/Linha";
       c_mensagem := "Arquivo Retidos: Coluna de 'Forno' ou 'Linha' não encontrada." |} ].

Definition resolver_campo (cols_prod cols_ret : list string) (c : campo)
  : option string :=
  identificar_coluna
    (match c_arquivo c with Producao => cols_prod | Retidos => cols_ret end)
    (c_keywords c) (c_nome c).

Definition nao_resolvido (cols_prod cols_ret : list string) (c : campo) : bool :=
  match resolver_campo cols_prod cols_ret c with
  | None => true
  | Some _ => false
  end.

(** ** Definitions used in the statements *)

(** The team rows of a line with their sort key, and the overall row that
    [adicionar_linha_geral] computes from them. *)
Definition com_ordem (r : agg_row) : geral_row :=
  {| g_dados := r; g_Ordem := ordem (Equipe r) |}.

Definition linha_geral (equipes : list agg_row) (nome_linha : string)
  (meta_pct : pyfloat) : agg_row :=
  let total_prod := fsum (map M2_Produzido equipes) in
  let total_ret := fsum (map M2_Retido equipes) in
  {| Linha := nome_linha; Equipe := media_geral;
     M2_Produzido := total_prod; M2_Retido := total_ret;
     Meta_M2 := fmul total_prod (fdiv meta_pct hundred);
     Saldo_M2 := fsub (fmul total_prod (fdiv meta_pct hundred)) total_ret;
     Pct_Realizado :=
       if fgtb total_prod fzero then fmul (fdiv total_ret total_prod) hundred
       else fzero |}.






(** The rows of a group. *)
Definition grupo {A K : Type} `{EqDecision K} (key : A -> option K) (df : list A)
  (k : K) : list A :=
  List.filter (fun r => bool_decide (key r = Some k)) df.

(** A string without a decimal digit. *)
Fixpoint sem_digitos (s : string) : bool :=
  match s with
  | EmptyString => true
  | String c r => negb (PyStr.is_digit c) && sem_digitos r
  end.

(** A string that does not start with a decimal digit. *)
Definition nao_comeca_com_digito (s : string) : bool :=
  match s with
  | EmptyString => true
  | String c _ => negb (PyStr.is_digit c)
  end.

(** The exclusion filter as a predicate on rows, and the configuration
    without exclusions. *)
Definition excluida (cfg : config) (r : ret_row) : bool :=
  isin (rr_motivo r) (motivos_excluir cfg).

Definition sem_exclusao (cfg : config) : config :=
  {| META_PCT := META_PCT cfg; motivo_alvo := motivo_alvo cfg;
     motivos_excluir := [] |}.

Definition total_retido (p : painel) : pyfloat :=
  fsum (map M2_Retido (pn_df_final p)).


(** Two small files: team A on line 4/5 and team B, which produced
    nothing, on line 6; retained rows for A, for B and for a team C that is
    not in the production file. *)
Definition producao_exemplo : list prod_row :=
  [ {| pr_Equipe := Some "A"; pr_Linha := "Linha 4 e 5";
       pr_metragem_real := Fin (qz 10000) |};
    {| pr_Equipe := Some "B"; pr_Linha := "Linha 6";
       pr_metragem_real := Fin (qz 0) |} ].

Definition retidos_exemplo : list ret_row :=
  [ {| rr_motivo := Some "Bolha"; rr_Equipe := Some "A";
       rr_Linha := "Linha 4 e 5"; rr_m2_real := Fin (qz 50) |};
    {| rr_motivo := Some "Trinca"; rr_Equipe := Some "B";
       rr_Linha := "Linha 6"; rr_m2_real := Fin (qz 5) |};
    {| rr_motivo := Some "Trinca"; rr_Equipe := Some "C";
       rr_Linha := "Linha 6"; rr_m2_real := Fin (qz 7) |} ].

Definition config_exemplo : config :=
  {| META_PCT := Fin (Q2Qc (1 # 2)); motivo_alvo := "Bolha";
     motivos_excluir := ["Bolha"] |}.

(** The same rows as cells of the two files. *)
Definition linhas_producao_exemplo : list linha_producao :=
  [ {| p_equipe := Some "A"; p_forno := PStr "Forno 10"; p_metragem := PStr "10.000,00" |};
    {| p_equipe := Some "B"; p_forno := PInt 12; p_metragem := PStr "0" |} ].

Definition linhas_retidos_exemplo : list linha_retidos :=
  [ {| r_motivo := Some "Bolha"; r_m2 := PStr "50,00"; r_equipe := Some "A";
       r_forno := PStr "Forno 10" |};
    {| r_motivo := Some "Trinca"; r_m2 := PStr "5"; r_equipe := Some "B";
       r_forno := PStr "12" |};
    {| r_motivo := Some "Trinca"; r_m2 := PInt 7; r_equipe := Some "C";
       r_forno := PStr "12" |} ].

(** ** Definitions used in the further properties *)

(** Every character of a text is in a class. *)
Fixpoint todos (P : ascii -> bool) (s : string) : bool :=
  match s with
  | EmptyString => true
  | String c r => P c && todos P r
  end.

(** The characters of a number written with thousands separators and a
    decimal comma, and those of its integer part. *)
Definition char_numero (c : ascii) : bool :=
  PyStr.is_digit c || Ascii.eqb c "." || Ascii.eqb c ",".





(** The bars of the reason drill-down (lines 411 and 417): a bar is green
    when its value is within the limit or when the limit is switched off. *)
Definition cor_m2 (USAR_META_M2 : bool) (META_ABSOLUTA_M2 x : pyfloat) : string :=
  if fleb x META_ABSOLUTA_M2 || negb USAR_META_M2 then verde else vermelho.

Definition cor_qtd (USAR_META_FREQ : bool) (META_FREQ_QTD x : Z) : string :=
  if (x <=? META_FREQ_QTD)%Z || negb USAR_META_FREQ then verde else vermelho.




(** The key of a row of the chart, and the rows of a line and a month in
    the two tables. *)
Definition ev_chave (r : evol_row) : chave := (ev_mes_ano r, ev_Equipe r).

Definition producao_do_mes (df_prod : list prod_mes) (nome_linha m : string)
  : list prod_mes :=
  List.filter
    (fun r => String.eqb (pr_Linha (pm_linha r)) nome_linha
              && bool_decide (pm_mes_ano r = Some m)) df_prod.

Definition retidos_do_mes (df_ret : list ret_mes) (nome_linha m : string)
  : list ret_mes :=
  List.filter
    (fun r => String.eqb (rr_Linha (rm_linha r)) nome_linha
              && bool_decide (rm_mes_ano r = Some m)) df_ret.

Definition producao_da_equipe (e : string) (df : list prod_mes) : list prod_mes :=
  List.filter (fun r => bool_decide (pr_Equipe (pm_linha r) = Some e)) df.

Definition retidos_da_equipe (e : string) (df : list ret_mes) : list ret_mes :=
  List.filter (fun r => bool_decide (rr_Equipe (rm_linha r) = Some e)) df.

Definition total_produzido (df : list prod_mes) : pyfloat :=
  fillna0 (fsum (map (fun r => pr_metragem_real (pm_linha r)) df)).

Definition total_retido_mes (df : list ret_mes) : pyfloat :=
  fillna0 (fsum (map (fun r => rr_m2_real (rm_linha r)) df)).

(** Two months of line 6: a production row without team in the first
    month, and a team C that is in the retained file only. *)
Definition producao_mensal_exemplo : list prod_mes :=
  [ {| pm_linha := {| pr_Equipe := Some "A"; pr_Linha := "Linha 6";
                      pr_metragem_real := Fin (qz 1000) |};
       pm_mes_ano := Some "2024-01" |};
    {| pm_linha := {| pr_Equipe := None; pr_Linha := "Linha 6";
                      pr_metragem_real := Fin (qz 500) |};
       pm_mes_ano := Some "2024-01" |};
    {| pm_linha := {| pr_Equipe := Some "A"; pr_Linha := "Linha 6";
                      pr_metragem_real := Fin (qz 2000) |};
       pm_mes_ano := Some "2024-02" |} ].

Definition retidos_mensal_exemplo : list ret_mes :=
  [ {| rm_linha := {| rr_motivo := Some "Bolha"; rr_Equipe := Some "A";
                      rr_Linha := "Linha 6"; rr_m2_real := Fin (qz 3) |};
       rm_mes_ano := Some "2024-01" |};
    {| rm_linha := {| rr_motivo := Some "Trinca"; rr_Equipe := Some "C";
                      rr_Linha := "Linha 6"; rr_m2_real := Fin (qz 4) |};
       rm_mes_ano := Some "2024-01" |};
    {| rm_linha := {| rr_motivo := Some "Trinca"; rr_Equipe := Some "A";
                      rr_Linha := "Linha 6"; rr_m2_real := Fin (qz 5) |};
       rm_mes_ano := None |} ].

(** The order of the rows of the chart: by month, then the teams before
    the overall bar, then by team name. *)
Definition antes (a b : evol_row) : Prop :=
  String.leb (ev_mes_ano a) (ev_mes_ano b) = true
  /\ (ev_mes_ano a = ev_mes_ano b ->
      (ev_Ordem_Equipe a <= ev_Ordem_Equipe b)%Z
      /\ (ev_Ordem_Equipe a = ev_Ordem_Equipe b ->
          String.leb (ev_Equipe a) (ev_Equipe b) = true)).




(** * Properties *)

(** ** Strings *)

Lemma append_String_assoc (a : string) (c : ascii) (b : string) :
  (a ++ String c "") ++ b = a ++ String c b.
Proof. induction a as [|x a IH]; simpl; congruence. Qed.

Lemma eqb_vazio_append (a : string) (c : ascii) :
  String.eqb (a ++ String c "") "" = false.
Proof. destruct a; reflexivity. Qed.

Lemma prefixo_digitos_all (s : string) : PyStr.all_digits (prefixo_digitos s) = true.
Proof.
  induction s as [|c r IH]; simpl; [reflexivity |].
  destruct (PyStr.is_digit c) eqn:E; simpl; [now rewrite E | reflexivity].
Qed.

(** The first match of [\d+] is the first run of digits: while a run is
    being read it is extended by the digits that follow. *)
Lemma findall_digits_aux_head (s run : string) :
  head (PyStr.findall_digits_aux s run) =
  if String.eqb run "" then primeira_sequencia s
  else Some (run ++ prefixo_digitos s).
Proof.
  revert run; induction s as [|c r IH]; intros run; simpl.
  - destruct (String.eqb run "") eqn:E; [reflexivity |].
    simpl. f_equal. clear E. induction run; simpl; congruence.
  - destruct (PyStr.is_digit c) eqn:D.
    + rewrite IH, eqb_vazio_append, append_String_assoc.
      destruct (String.eqb run "") eqn:E; [| reflexivity].
      apply String.eqb_eq in E; subst run; reflexivity.
    + destruct (String.eqb run "") eqn:E; simpl.
      * rewrite IH. reflexivity.
      * f_equal. clear. induction run; simpl; congruence.
Qed.

Lemma findall_digits_head (s : string) :
  head (PyStr.findall_digits s) = primeira_sequencia s.
Proof. unfold PyStr.findall_digits. now rewrite findall_digits_aux_head. Qed.

Lemma primeira_sequencia_digits (s d : string) :
  primeira_sequencia s = Some d ->
  PyStr.all_digits d = true /\ String.eqb d "" = false.
Proof.
  induction s as [|c r IH]; simpl; [discriminate |].
  destruct (PyStr.is_digit c) eqn:D; [| exact IH].
  intros [= <-]. simpl. rewrite D, prefixo_digitos_all. split; reflexivity.
Qed.

Lemma prefix_vazio (s : string) : String.prefix "" s = true.
Proof. destruct s; reflexivity. Qed.

Lemma prefixo_digitos_resto (s : string) :
  exists post, s = (prefixo_digitos s ++ post)%string /\ nao_comeca_com_digito post = true.
Proof.
  induction s as [|c r [post [IH Hp]]]; simpl.
  - exists "". split; reflexivity.
  - destruct (PyStr.is_digit c) eqn:D.
    + exists post. split; [simpl; congruence | exact Hp].
    + exists (String c r). split; [reflexivity |]. simpl. now rewrite D.
Qed.

(** [primeira_sequencia] finds a maximal run of digits that no digit
    precedes, and nothing when the string has no digit. *)
Lemma primeira_sequencia_Some (s d : string) :
  primeira_sequencia s = Some d ->
  exists pre post,
    s = (pre ++ d ++ post)%string
    /\ sem_digitos pre = true
    /\ PyStr.all_digits d = true /\ d <> ""
    /\ nao_comeca_com_digito post = true.
Proof.
  induction s as [|c r IH]; simpl; [discriminate |].
  destruct (PyStr.is_digit c) eqn:D.
  - intros [= <-]. destruct (prefixo_digitos_resto r) as [post [Hr Hp]].
    exists "", post. simpl. rewrite D, prefixo_digitos_all.
    repeat split; [congruence | discriminate | exact Hp].
  - intros H. destruct (IH H) as [pre [post [Hr [Hpre [Hd [Hne Hp]]]]]].
    exists (String c pre), post. simpl. rewrite D, Hpre.
    repeat split; [congruence | exact Hd | exact Hne | exact Hp].
Qed.

Lemma primeira_sequencia_None (s : string) :
  primeira_sequencia s = None <-> sem_digitos s = true.
Proof.
  induction s as [|c r IH]; simpl; [tauto |].
  destruct (PyStr.is_digit c); simpl; [split; discriminate | exact IH].
Qed.

Lemma replace_remover (c : ascii) (s : string) :
  PyStr.replace (String c "") "" s = remover_char c s.
Proof.
  unfold PyStr.replace.
  induction s as [|a r IH]; simpl; [reflexivity |].
  destruct (ascii_dec c a) as [->|Hne].
  - rewrite Ascii.eqb_refl, prefix_vazio. exact IH.
  - destruct (Ascii.eqb a c) eqn:E.
    + apply Ascii.eqb_eq in E. congruence.
    + now rewrite IH.
Qed.

Lemma replace_trocar (c d : ascii) (s : string) :
  PyStr.replace (String c "") (String d "") s = trocar_char c d s.
Proof.
  unfold PyStr.replace.
  induction s as [|a r IH]; simpl; [reflexivity |].
  destruct (ascii_dec c a) as [->|Hne].
  - rewrite Ascii.eqb_refl, prefix_vazio. simpl. now rewrite IH.
  - destruct (Ascii.eqb a c) eqn:E.
    + apply Ascii.eqb_eq in E. congruence.
    + now rewrite IH.
Qed.

Lemma remover_char_sem (c : ascii) (s : string) :
  PyStr.contains (String c "") (remover_char c s) = false.
Proof.
  induction s as [|a r IH]; simpl; [reflexivity |].
  destruct (Ascii.eqb a c) eqn:E; [exact IH |].
  simpl. destruct (ascii_dec c a) as [->|Hne].
  - now rewrite Ascii.eqb_refl in E.
  - exact IH.
Qed.

(** ** Cells *)

Section CelulasProps.

Variable float_repr : pyfloat -> string.

Lemma mapear_linha_classificar (forno : pyval) :
  mapear_linha float_repr forno = Ok (classificar (py_str float_repr forno)).
Proof.
  unfold mapear_linha, classificar.
  pose proof (findall_digits_head (py_str float_repr forno)) as H.
  destruct (PyStr.findall_digits (py_str float_repr forno)) as [|n0 ns];
    simpl in H; rewrite <- H; simpl; [reflexivity |].
  symmetry in H. apply primeira_sequencia_digits in H as [Hd Hne].
  unfold py_int. rewrite Hd, Hne. simpl.
  generalize (PyStr.digits_value n0 0). intros z.
  destruct (Z.eqb_spec z 10) as [->|H10]; [reflexivity |].
  destruct (Z.eqb_spec z 11) as [->|H11]; [reflexivity |].
  destruct (Z.eqb_spec z 12) as [->|H12]; [reflexivity |].
  destruct (Z.eqb_spec z 13) as [->|H13]; [reflexivity |].
  simpl. destruct z as [|p|p]; try reflexivity.
  do 4 (destruct p as [p|p|]; try reflexivity); congruence.
Qed.

End CelulasProps.

(** The scenarios of the specification and a few more cells; a float cell
    is rendered by the given [repr]. *)
Lemma mapear_linha_exemplos (float_repr : pyfloat -> string) :
  mapear_linha float_repr (PStr "Forno 10") = Ok "Linha 4 e 5"
  /\ mapear_linha float_repr (PStr "12") = Ok "Linha 6"
  /\ mapear_linha float_repr (PInt 13) = Ok "Linha 6"
  /\ mapear_linha float_repr (PInt (-11)) = Ok "Linha 4 e 5"
  /\ mapear_linha float_repr (PStr "Forno 010") = Ok "Linha 4 e 5"
  /\ mapear_linha float_repr (PStr "Linha 4 - Forno 10") = Ok "Outros"
  /\ mapear_linha float_repr PNone = Ok "Outros"
  /\ mapear_linha (fun _ => "10.0") (PFloat (Fin (qz 10))) = Ok "Linha 4 e 5".
Proof. repeat split; vm_compute; reflexivity. Qed.


Lemma limpar_numero_texto (float_repr : pyfloat -> string) (val : pyval) :
  pd_isna val = false -> isinstance_int_float val = false ->
  limpar_numero float_repr val =
    Ok (valor_ou_zero (py_float_of_str (limpeza (py_str float_repr val)))).
Proof.
  intros Hna Hnum. unfold limpar_numero, limpeza. rewrite Hna, Hnum.
  rewrite !replace_remover, replace_trocar.
  destruct (py_float_of_str _); reflexivity.
Qed.

Lemma limpar_numero_ok (float_repr : pyfloat -> string) (val : pyval) :
  exists f, limpar_numero float_repr val = Ok f.
Proof.
  destruct val as [|b|z|f|s|s]; try (eexists; reflexivity).
  - destruct f; eexists; reflexivity.
  - rewrite limpar_numero_texto by reflexivity. eexists; reflexivity.
  - rewrite limpar_numero_texto by reflexivity. eexists; reflexivity.
Qed.




(** ** Column identification *)

Lemma mapa_cols_fold_inv (columns : list string) (m : gmap string string)
  (k c : string) :
  foldl (fun m c => <[normalizar c := c]> m) m columns !! k = Some c ->
  m !! k = Some c \/ (In c columns /\ normalizar c = k).
Proof.
  revert m; induction columns as [|x xs IH]; intros m H; simpl in *; [now left |].
  apply IH in H as [H | [Hin Hk]].
  - destruct (decide (normalizar x = k)) as [Heq | Hne].
    + rewrite Heq, lookup_insert_eq in H. injection H as ->. right; auto.
    + rewrite lookup_insert_ne in H by exact Hne. now left.
  - right; auto.
Qed.

Lemma mapa_cols_lookup (columns : list string) (k c : string) :
  mapa_cols columns !! k = Some c -> In c columns /\ normalizar c = k.
Proof.
  intros H. apply mapa_cols_fold_inv in H as [H | H]; [| exact H].
  rewrite lookup_empty in H. discriminate.
Qed.

Lemma mapa_cols_fold_some (columns : list string) (m : gmap string string)
  (k : string) :
  is_Some (m !! k) \/ In k (map normalizar columns) ->
  is_Some (foldl (fun m c => <[normalizar c := c]> m) m columns !! k).
Proof.
  revert m; induction columns as [|x xs IH]; intros m H; simpl in *.
  - destruct H as [H | []]; exact H.
  - apply IH. destruct (decide (normalizar x = k)) as [Heq | Hne].
    + left. rewrite Heq, lookup_insert_eq. eauto.
    + destruct H as [H | [H | H]]; [left | contradiction | right; exact H].
      now rewrite lookup_insert_ne.
Qed.

Lemma mapa_cols_is_Some (columns : list string) (k : string) :
  In k (map normalizar columns) -> is_Some (mapa_cols columns !! k).
Proof. intros H. apply mapa_cols_fold_some. now right. Qed.


Lemma primeira_coluna_find (kw : string) (columns : list string) :
  primeira_coluna kw (map normalizar columns) =
  option_map normalizar (List.find (coincide kw) columns).
Proof.
  induction columns as [|c r IH]; simpl; [reflexivity |].
  unfold coincide at 1. destruct (PyStr.contains kw (normalizar c)); [reflexivity | exact IH].
Qed.


(** [identificar_coluna] returns [None] exactly when no keyword occurs in
    any normalised column name; a column it returns contains one of the
    keywords. *)
Lemma identificar_coluna_None (columns keywords : list string) (nome : string) :
  identificar_coluna columns keywords nome = None <->
  forall kw c, In kw keywords -> In c columns -> coincide kw c = false.
Proof.
  unfold identificar_coluna.
  induction keywords as [|kw r IH]; simpl; [tauto |].
  rewrite primeira_coluna_find.
  destruct (List.find (coincide kw) columns) as [c|] eqn:E; simpl.
  - split.
    + intros H. exfalso.
      destruct (mapa_cols_is_Some columns (normalizar c)) as [d Hd].
      { apply in_map. now apply find_some in E. }
      congruence.
    + intros H. apply find_some in E as [Hin Hc].
      rewrite (H kw c) in Hc by auto. discriminate.
  - rewrite IH. split.
    + intros H kw' c [<- | Hin] Hc; [| now apply H].
      now apply (find_none _ _ E).
    + intros H kw' c Hin Hc. apply H; auto.
Qed.

Lemma identificar_coluna_Some (columns keywords : list string) (nome c : string) :
  identificar_coluna columns keywords nome = Some c ->
  In c columns /\ exists kw, In kw keywords /\ coincide kw c = true.
Proof.
  unfold identificar_coluna.
  induction keywords as [|kw r IH]; simpl; [discriminate |].
  rewrite primeira_coluna_find.
  destruct (List.find (coincide kw) columns) as [d|] eqn:E; simpl.
  - intros H. apply mapa_cols_lookup in H as [Hin Hk]. split; [exact Hin |].
    exists kw. split; [now left |].
    apply find_some in E as [_ Hd]. unfold coincide in *. now rewrite Hk.
  - intros H. apply IH in H as [Hin [kw' [Hkw Hc]]]. eauto.
Qed.

Lemma coincide_vazio (kw : string) : kw <> "" -> coincide kw "" = false.
Proof. intros H. destruct kw; [congruence | reflexivity]. Qed.

(** With non-empty keywords, [not col] holds of the result exactly when it
    is [None]. *)
Lemma py_not_identificar (columns keywords : list string) (nome : string) :
  Forall (fun kw => kw <> "") keywords ->
  py_not (identificar_coluna columns keywords nome) =
  match identificar_coluna columns keywords nome with None => true | Some _ => false end.
Proof.
  intros Hkw. destruct (identificar_coluna columns keywords nome) as [c|] eqn:E;
    [| reflexivity].
  simpl. destruct (String.eqb_spec c "") as [-> | Hne]; [| reflexivity].
  apply identificar_coluna_Some in E as [_ [kw [Hin Hc]]].
  rewrite Forall_forall in Hkw. rewrite coincide_vazio in Hc by now apply Hkw.
  discriminate.
Qed.

(** C7: on a table with two columns of the same lower-cased, trimmed name
    [identificar_coluna] returns the later one, where the resolver of the
    specification returns the first column in table order. *)
Theorem identificar_coluna_colisao :
  identificar_coluna ["Turno"; "TURNO"] ["equipe"; "team"; "turno"] "Equipe"
    = Some "TURNO"
  /\ resolver_coluna ["Turno"; "TURNO"] ["equipe"; "team"; "turno"] = Some "Turno".
Proof. split; vm_compute; reflexivity. Qed.

(** The scenario of the specification: the keywords equipe, team, turno
    against the columns Turno, Produto. *)
Lemma identificar_coluna_turno :
  identificar_coluna ["Turno"; "Produto"] ["equipe"; "team"; "turno"] "Equipe"
    = Some "Turno".
Proof. vm_compute. reflexivity. Qed.

(** ** Validation of the two files *)

Lemma concat_map_if {A B : Type} (p : A -> bool) (m : A -> B) (l : list A) :
  concat (map (fun c => if p c then [m c] else []) l) = map m (List.filter p l).
Proof.
  induction l as [|x r IH]; simpl; [reflexivity |].
  destruct (p x); simpl; now rewrite IH.
Qed.

Lemma keywords_nao_vazias :
  Forall (fun c => Forall (fun kw => kw <> "") (c_keywords c)) campos_obrigatorios.
Proof. repeat constructor; discriminate. Qed.

Lemma erros_mapeamento_campos (cols_prod cols_ret : list string) :
  erros_mapeamento cols_prod cols_ret =
  map c_mensagem (List.filter (nao_resolvido cols_prod cols_ret) campos_obrigatorios).
Proof.
  rewrite <- concat_map_if.
  transitivity
    (concat (map (fun c => erro_se (resolver_campo cols_prod cols_ret c) (c_mensagem c))
               campos_obrigatorios)).
  - unfold erros_mapeamento, campos_obrigatorios, resolver_campo. simpl.
    now rewrite app_nil_r.
  - f_equal. pose proof keywords_nao_vazias as H.
    induction H as [|c l Hc _ IH]; simpl; [reflexivity |].
    f_equal; [| exact IH].
    unfold erro_se, nao_resolvido, resolver_campo.
    now rewrite py_not_identificar.
Qed.

(** C8: when a required field of either file does not resolve, the list of
    errors holds one message for every unresolved required field of both
    files, in the order of the fields, each naming the file and the column;
    the script shows the whole list between a header and a hint and stops:
    no table is produced. *)
Theorem validacao_em_lote (float_repr : pyfloat -> string)
  (cols_prod cols_ret : list string) (linhas_prod : list linha_producao)
  (linhas_ret : list linha_retidos) (cfg : config) :
  (exists c, In c campos_obrigatorios /\ resolver_campo cols_prod cols_ret c = None) ->
  let erros :=
    map c_mensagem (List.filter (nao_resolvido cols_prod cols_ret) campos_obrigatorios) in
  erros_mapeamento cols_prod cols_ret = erros
  /\ erros <> []
  /\ processar float_repr cols_prod cols_ret linhas_prod linhas_ret cfg =
       Ok (Parado
             (st_error "⚠️ **Problemas encontrados na estrutura dos arquivos:**"
              :: map st_warning erros
              ++ [st_info
                    "Dica: Verifique se os nomes das colunas no Excel correspondem ao esperado (ex: 'Equipe', 'M2', 'Forno')."])%list).
Proof.
  intros [c [Hin Hc]] erros.
  assert (Hne : erros <> []).
  { subst erros. intros Hnil.
    assert (Hf : In c (List.filter (nao_resolvido cols_prod cols_ret) campos_obrigatorios)).
    { apply filter_In. split; [exact Hin |]. unfold nao_resolvido. now rewrite Hc. }
    destruct (List.filter _ _); [contradiction | discriminate]. }
  pose proof (erros_mapeamento_campos cols_prod cols_ret) as He.
  fold erros in He. repeat split; [exact He | exact Hne |].
  unfold processar. rewrite He.
  destruct erros as [|e es]; [congruence | reflexivity].
Qed.

Lemma validacao_em_lote_witness :
  (exists c, In c campos_obrigatorios
             /\ resolver_campo ["Turno"; "Prod"] ["Causa"; "Turno"; "Linha"] c = None)
  /\ processar (fun _ => "") ["Turno"; "Prod"] ["Causa"; "Turno"; "Linha"] [] []
       {| META_PCT := Fin (qz 1); motivo_alvo := ""; motivos_excluir := [] |} =
     Ok (Parado
           [st_error "⚠️ **Problemas encontrados na estrutura dos arquivos:**";
            st_warning "Arquivo Produção: Coluna de 'Forno' ou 'Linha' não encontrada.";
            st_warning "Arquivo Retidos: Coluna de 'M2' ou 'Metragem' não encontrada.";
            st_info
              "Dica: Verifique se os nomes das colunas no Excel correspondem ao esperado (ex: 'Equipe', 'M2', 'Forno')."]).
Proof.
  assert (H : exists c, In c campos_obrigatorios
              /\ resolver_campo ["Turno"; "Prod"] ["Causa"; "Turno"; "Linha"] c = None).
  { eexists. split; [right; left; reflexivity | vm_compute; reflexivity]. }
  split; [exact H |].
  destruct (validacao_em_lote (fun _ => "") ["Turno"; "Prod"] ["Causa"; "Turno"; "Linha"]
              [] [] {| META_PCT := Fin (qz 1); motivo_alvo := ""; motivos_excluir := [] |} H)
    as [_ [_ Hp]].
  rewrite Hp. vm_compute. reflexivity.
Defined.

(** ** Sorting *)

Open Scope list_scope.

Section Ordenar.

Context {A : Type} (leb : A -> A -> bool).

Lemma inserir_perm (x : A) (l : list A) : Permutation (inserir leb x l) (x :: l).
Proof.
  induction l as [|y r IH]; simpl; [reflexivity |].
  destruct (leb x y); [reflexivity |].
  rewrite IH. apply perm_swap.
Qed.

Lemma ordenar_perm (l : list A) : Permutation (ordenar leb l) l.
Proof.
  induction l as [|x r IH]; simpl; [reflexivity |].
  rewrite inserir_perm. now constructor.
Qed.

Lemma ordenar_In (x : A) (l : list A) : In x (ordenar leb l) <-> In x l.
Proof.
  split; apply Permutation_in; [| symmetry]; apply ordenar_perm.
Qed.

Hypothesis leb_total : forall a b, leb a b = false -> leb b a = true.

Lemma inserir_sorted (x : A) (l : list A) :
  Sorted (fun a b => leb a b = true) l ->
  Sorted (fun a b => leb a b = true) (inserir leb x l).
Proof.
  induction 1 as [|y r Hs IH Hhd]; simpl; [repeat constructor |].
  destruct (leb x y) eqn:E.
  - constructor; [now constructor | now constructor].
  - constructor; [exact IH |].
    destruct r as [|z r']; simpl.
    + constructor. now apply leb_total.
    + destruct (leb x z); constructor; [now apply leb_total |].
      now inversion Hhd.
Qed.

Lemma ordenar_sorted (l : list A) : Sorted (fun a b => leb a b = true) (ordenar leb l).
Proof.
  induction l as [|x r IH]; simpl; [constructor | now apply inserir_sorted].
Qed.

End Ordenar.

(** Stability: an element that is not below any other stays at the end. *)
Lemma inserir_snoc {A : Type} (leb : A -> A -> bool) (a x : A) (s : list A) :
  leb a x = true -> inserir leb a (s ++ [x]) = inserir leb a s ++ [x].
Proof.
  intros H. induction s as [|y r IH]; simpl; [now rewrite H |].
  destruct (leb a y); [reflexivity | now rewrite IH].
Qed.

Lemma ordenar_snoc {A : Type} (leb : A -> A -> bool) (x : A) (l : list A) :
  (forall a, In a l -> leb a x = true) ->
  ordenar leb (l ++ [x]) = ordenar leb l ++ [x].
Proof.
  induction l as [|a r IH]; intros H; simpl; [reflexivity |].
  rewrite IH by (intros b Hb; apply H; now right).
  apply inserir_snoc. apply H. now left.
Qed.

Lemma string_compare_refl (s : string) : String.compare s s = Eq.
Proof.
  induction s as [|c r IH]; simpl; [reflexivity |].
  unfold Ascii.compare. now rewrite N.compare_refl.
Qed.

Lemma string_leb_refl (s : string) : String.leb s s = true.
Proof. unfold String.leb. now rewrite string_compare_refl.
Qed.

Lemma string_leb_total (a b : string) : String.leb a b = false -> String.leb b a = true.
Proof.
  intros H. destruct (String.leb_total a b) as [H' | H']; congruence.
Qed.

Lemma string_leb_trans (a b c : string) :
  String.leb a b = true -> String.leb b c = true -> String.leb a c = true.
Proof.
  unfold String.leb. revert b c.
  induction a as [|x a IH]; intros [|y b] [|z c]; simpl; try (intros; congruence).
  unfold Ascii.compare.
  destruct (N.compare_spec (N_of_ascii x) (N_of_ascii y)) as [Hxy | Hxy | Hxy];
    destruct (N.compare_spec (N_of_ascii y) (N_of_ascii z)) as [Hyz | Hyz | Hyz];
    destruct (N.compare_spec (N_of_ascii x) (N_of_ascii z)) as [Hxz | Hxz | Hxz];
    try lia; try (intros; congruence).
  apply IH.
Qed.


(** ** [adicionar_linha_geral] *)

Lemma ordem_cases (e : string) :
  (e = media_geral /\ ordem e = 1%Z) \/ (e <> media_geral /\ ordem e = 0%Z).
Proof.
  unfold ordem. destruct (String.eqb_spec e media_geral); [left | right]; auto.
Qed.

Lemma geral_leb_ultima (r g : agg_row) :
  Equipe g = media_geral -> geral_leb (com_ordem r) (com_ordem g) = true.
Proof.
  intros Hg. unfold geral_leb, com_ordem; simpl. rewrite Hg.
  destruct (ordem_cases (Equipe r)) as [[He ->] | [He ->]];
    destruct (ordem_cases media_geral) as [[_ ->] | [Hm _]]; try congruence.
  - simpl. rewrite He. apply string_leb_refl.
  - reflexivity.
Qed.

(** The table of a line is the sorted team rows followed by the overall
    row. *)
Lemma adicionar_linha_geral_eq (df_original : list agg_row) (nome_linha : string)
  (meta_pct : pyfloat) :
  let equipes := List.filter (fun r => String.eqb (Linha r) nome_linha) df_original in
  adicionar_linha_geral df_original nome_linha meta_pct =
  match equipes with
  | [] => []
  | _ => ordenar geral_leb (map com_ordem equipes)
           ++ [com_ordem (linha_geral equipes nome_linha meta_pct)]
  end.
Proof.
  intros equipes. unfold adicionar_linha_geral. fold equipes.
  change (fun r : agg_row => {| g_dados := r; g_Ordem := ordem (Equipe r) |})
    with com_ordem.
  destruct equipes as [|e es] eqn:E; [reflexivity |].
  rewrite map_app.
  apply (ordenar_snoc geral_leb
           (com_ordem (linha_geral (e :: es) nome_linha meta_pct))
           (map com_ordem (e :: es))).
  intros a Ha. apply in_map_iff in Ha as [r [<- _]].
  now apply geral_leb_ultima.
Qed.



(** A production row of another furnace is in the summary with the line
    'Outros' and in no row of the final table. *)
Lemma outros_fora_da_tabela :
  let df_final :=
    calcular_df_final (Fin (qz 1))
      [ {| pr_Equipe := Some "A"; pr_Linha := "Outros";
           pr_metragem_real := Fin (qz 10) |} ] [] in
  map Linha df_final = ["Outros"]
  /\ calcular_df_tabela_final (Fin (qz 1)) df_final = [].
Proof. split; vm_compute; reflexivity. Qed.

(** ** Arithmetic of the float model *)

Lemma fadd_comm (x y : pyfloat) : fadd x y = fadd y x.
Proof. destruct x, y; simpl; try reflexivity. f_equal. ring. Qed.

Lemma fadd_assoc (x y z : pyfloat) : fadd x (fadd y z) = fadd (fadd x y) z.
Proof. destruct x, y, z; simpl; try reflexivity. f_equal. ring. Qed.

Lemma qz_0 : qz 0 = 0%Qc.
Proof. apply Qc_is_canon. reflexivity. Qed.

Lemma fadd_fzero_l (x : pyfloat) : fadd fzero x = x.
Proof. destruct x; simpl; try reflexivity. f_equal. rewrite qz_0. ring. Qed.

Lemma fadd_fzero_r (x : pyfloat) : fadd x fzero = x.
Proof. rewrite fadd_comm. apply fadd_fzero_l. Qed.

Lemma fsum_cons (x : pyfloat) (l : list pyfloat) :
  fsum (x :: l) = if is_nan x then fsum l else fadd x (fsum l).
Proof. unfold fsum. simpl. destruct (is_nan x); reflexivity. Qed.

Lemma fsum_app (l1 l2 : list pyfloat) : fsum (l1 ++ l2) = fadd (fsum l1) (fsum l2).
Proof.
  induction l1 as [|x r IH]; cbn [app].
  - change (fsum []) with fzero. now rewrite fadd_fzero_l.
  - rewrite !fsum_cons. destruct (is_nan x); [exact IH |].
    now rewrite IH, fadd_assoc.
Qed.




(** ** The overall row *)

Lemma Sorted_weaken {A : Type} (P : A -> Prop) (R1 R2 : A -> A -> Prop) (l : list A) :
  (forall a b, P a -> P b -> R1 a b -> R2 a b) ->
  Forall P l -> Sorted R1 l -> Sorted R2 l.
Proof.
  intros HR HP Hs. induction Hs as [|x r Hs IH Hhd]; [constructor |].
  inversion HP as [|? ? Px Pr]; subst.
  constructor; [now apply IH |].
  destruct Hhd as [|y r' Hxy]; constructor.
  inversion Pr; subst. now apply HR.
Qed.








(** ** Grouping and the left merge *)

Section Grupos.

Context {A K : Type} `{EqDecision K} (leb : K -> K -> bool).
Context (key : A -> option K) (val : A -> pyfloat).


Lemma chaves_In (df : list A) (k : K) :
  In k (ordenar leb (remove_dups (omap key df))) <->
  exists r, In r df /\ key r = Some k.
Proof.
  rewrite ordenar_In, <- list_elem_of_In, elem_of_remove_dups, list_elem_of_omap.
  split; intros [r [Hr Hk]]; exists r; split; auto; now apply list_elem_of_In.
Qed.

Lemma chaves_NoDup (df : list A) :
  List.NoDup (ordenar leb (remove_dups (omap key df))).
Proof.
  apply NoDup_ListNoDup.
  rewrite ordenar_perm. apply NoDup_remove_dups.
Qed.


Lemma procurar_map_In {V : Type} (f : K -> V) (k : K) (l : list K) :
  In k l -> procurar k (map (fun k => (k, f k)) l) = Some (f k).
Proof.
  induction l as [|x r IH]; simpl; [intros [] |].
  intros H. case_bool_decide as Hx; [now subst |].
  destruct H as [H | H]; [congruence | now apply IH].
Qed.

Lemma procurar_map_notin {V : Type} (f : K -> V) (k : K) (l : list K) :
  ~ In k l -> procurar k (map (fun k => (k, f k)) l) = None.
Proof.
  induction l as [|x r IH]; simpl; [reflexivity |].
  intros H. case_bool_decide as Hx; [tauto |]. apply IH. tauto.
Qed.

Lemma grupo_vazio (df : list A) (k : K) :
  (forall r, In r df -> key r <> Some k) -> grupo key df k = [].
Proof.
  intros H. unfold grupo. induction df as [|x r IH]; simpl; [reflexivity |].
  case_bool_decide as Hx.
  - exfalso. apply (H x); [now left | exact Hx].
  - apply IH. intros y Hy. apply H. now right.
Qed.

(** The value merged for a key: the sum of its group, nothing when the
    key has no group. *)
Lemma procurar_groupby_sum_In (df : list A) (k : K) :
  (exists r, In r df /\ key r = Some k) ->
  procurar k (groupby_sum leb key val df) = Some (fsum (map val (grupo key df k))).
Proof.
  intros H. unfold groupby_sum.
  apply (procurar_map_In (fun k => fsum (map val (grupo key df k)))).
  now apply chaves_In.
Qed.

Lemma procurar_groupby_sum_notin (df : list A) (k : K) :
  (forall r, In r df -> key r <> Some k) ->
  procurar k (groupby_sum leb key val df) = None.
Proof.
  intros H. unfold groupby_sum.
  apply (procurar_map_notin (fun k => fsum (map val (grupo key df k)))).
  rewrite chaves_In. intros [r [Hr Hk]]. now apply (H r).
Qed.

Lemma chave_decidivel (df : list A) (k : K) :
  (exists r, In r df /\ key r = Some k) \/ (forall r, In r df -> key r <> Some k).
Proof.
  induction df as [|x r IH]; [right; intros ? [] |].
  destruct (decide (key x = Some k)) as [Hx | Hx].
  - left. exists x. split; [now left | exact Hx].
  - destruct IH as [[y [Hy Hk]] | IH].
    + left. exists y. split; [now right | exact Hk].
    + right. intros y [<- | Hy]; [exact Hx | now apply IH].
Qed.

End Grupos.




(** ** The summary [df_final] *)


Lemma linha_final_retido (META_PCT : pyfloat) (df_ret : list ret_row)
  (p : chave * pyfloat) :
  M2_Retido (linha_final META_PCT (ret_agg df_ret) p) =
  fillna0 (fsum (map rr_m2_real (grupo chave_ret df_ret (fst p)))).
Proof.
  unfold linha_final, ret_agg. simpl.
  destruct (chave_decidivel chave_ret df_ret (fst p)) as [H | H].
  - now rewrite procurar_groupby_sum_In.
  - rewrite procurar_groupby_sum_notin by exact H.
    now rewrite grupo_vazio.
Qed.






(** ** Exclusion of reasons *)




Lemma filter_filter {A : Type} (p q : A -> bool) (l : list A) :
  List.filter p (List.filter q l) = List.filter (fun x => q x && p x) l.
Proof.
  induction l as [|x r IH]; simpl; [reflexivity |].
  destruct (q x); simpl; [destruct (p x) |]; now rewrite IH.
Qed.




(** ** The percentage of a row without production *)

Lemma fgtb_fzero : fgtb fzero fzero = false.
Proof. vm_compute. reflexivity. Qed.

(** The overall row is guarded (line 97). *)
Lemma linha_geral_sem_producao (equipes : list agg_row) (nome_linha : string)
  (meta_pct : pyfloat) :
  M2_Produzido (linha_geral equipes nome_linha meta_pct) = fzero ->
  Pct_Realizado (linha_geral equipes nome_linha meta_pct) = fzero.
Proof.
  unfold linha_geral. cbn [M2_Produzido Pct_Realizado].
  intros ->. now rewrite fgtb_fzero.
Qed.

(** A team row is not (line 295): dividing by a zero production gives an
    infinity or [nan]. *)
Lemma fdiv_fzero (x : pyfloat) :
  fdiv x fzero = PInf \/ fdiv x fzero = NInf \/ fdiv x fzero = NaN.
Proof.
  assert (He : qc_eqb (qz 0) (qz 0) = true) by (vm_compute; reflexivity).
  assert (Hl : qc_ltb (qz 0) (qz 0) = false) by (vm_compute; reflexivity).
  destruct x as [q| | |]; unfold fdiv, fzero; rewrite ?He, ?Hl; auto.
  destruct (fsign (Fin q)); simpl; auto.
Qed.

Lemma linha_final_sem_producao (META_PCT : pyfloat) (ret : list (chave * pyfloat))
  (p : chave * pyfloat) :
  M2_Produzido (linha_final META_PCT ret p) = fzero ->
  match Pct_Realizado (linha_final META_PCT ret p) with
  | Fin _ => False
  | _ => True
  end.
Proof.
  unfold linha_final. cbn [M2_Produzido Pct_Realizado]. intros ->.
  destruct (fdiv_fzero
              (fillna0 match procurar p.1 ret with Some v => v | None => NaN end))
    as [-> | [-> | ->]]; exact I.
Qed.

(** C2: the percentage of a team row whose produced quantity is 0 is not
    0.  For the files of the example (team B of line 6 produced "0" and has
    5 retained) the summary row of team B has produced quantity 0 and
    percentage [inf], while the overall row of the line has percentage 0;
    and no team row with produced quantity 0 has a finite percentage. *)
Theorem percentual_sem_producao (float_repr : pyfloat -> string) :
  (exists p,
     processar float_repr ["Equipe"; "Forno"; "Metragem"]
       ["Motivo"; "M2"; "Equipe"; "Forno"]
       linhas_producao_exemplo linhas_retidos_exemplo config_exemplo = Ok (Painel p)
     /\ map (fun r => (Linha r, Equipe r, M2_Produzido r, Pct_Realizado r))
          (List.filter (fun r => String.eqb (Linha r) "Linha 6") (pn_df_final p))
        = [("Linha 6", "B", fzero, PInf)]
     /\ map (fun r => (Equipe (g_dados r), M2_Produzido (g_dados r),
                       Pct_Realizado (g_dados r)))
          (pn_df_l6_completo p)
        = [("B", fzero, PInf); ("Média Geral", fzero, fzero)])
  /\ (forall META_PCT df_prod df_ret r,
        In r (calcular_df_final META_PCT df_prod df_ret) ->
        M2_Produzido r = fzero ->
        match Pct_Realizado r with Fin _ => False | _ => True end).
Proof.
  split.
  - eexists. split; [vm_compute; reflexivity |].
    split; vm_compute; reflexivity.
  - intros META_PCT df_prod df_ret r Hr. unfold calcular_df_final in Hr.
    apply in_map_iff in Hr as [p [<- _]]. apply linha_final_sem_producao.
Qed.

(** ** The script as a whole *)

Lemma mapM_total {A B : Type} (f : A -> exc B) (l : list A) :
  (forall x, exists y, f x = Ok y) ->
  exists ys, mapM f l = Ok ys /\ length ys = length l.
Proof.
  intros Hf. induction l as [|x r [ys [IH Hlen]]]; simpl.
  - exists []. split; reflexivity.
  - destruct (Hf x) as [y Hy]. rewrite Hy, IH. simpl.
    exists (y :: ys). split; [reflexivity | simpl; congruence].
Qed.

(** The derived columns are computed for every row: no row is dropped and
    no exception escapes. *)
Lemma tratar_producao_total (float_repr : pyfloat -> string) (l : list linha_producao) :
  exists df, tratar_producao float_repr l = Ok df /\ length df = length l.
Proof.
  apply mapM_total. intros r. unfold tratar_linha_producao.
  destruct (limpar_numero_ok float_repr (p_metragem r)) as [m ->].
  rewrite mapear_linha_classificar. simpl. eexists; reflexivity.
Qed.

Lemma tratar_retidos_total (float_repr : pyfloat -> string) (l : list linha_retidos) :
  exists df, tratar_retidos float_repr l = Ok df /\ length df = length l.
Proof.
  apply mapM_total. intros r. unfold tratar_linha_retidos.
  destruct (limpar_numero_ok float_repr (r_m2 r)) as [m ->].
  rewrite mapear_linha_classificar. simpl. eexists; reflexivity.
Qed.

(** When every required field resolves the script computes the tables. *)
Lemma processar_painel (float_repr : pyfloat -> string)
  (cols_prod cols_ret : list string) (linhas_prod : list linha_producao)
  (linhas_ret : list linha_retidos) (cfg : config) :
  erros_mapeamento cols_prod cols_ret = [] ->
  exists df_prod df_ret,
    tratar_producao float_repr linhas_prod = Ok df_prod
    /\ tratar_retidos float_repr linhas_ret = Ok df_ret
    /\ processar float_repr cols_prod cols_ret linhas_prod linhas_ret cfg =
         Ok (Painel (calcular_painel cfg df_prod df_ret)).
Proof.
  intros He.
  destruct (tratar_producao_total float_repr linhas_prod) as [df_prod [Hp _]].
  destruct (tratar_retidos_total float_repr linhas_ret) as [df_ret [Hr _]].
  exists df_prod, df_ret. unfold processar. rewrite He, Hp, Hr. auto.
Qed.

(** The quantities of the summary are never [nan], so the sums over them
    skip nothing. *)
Lemma fillna0_nao_nan (x : pyfloat) : is_nan (fillna0 x) = false.
Proof. destruct x; reflexivity. Qed.

Lemma df_final_sem_nan (META_PCT : pyfloat) (df_prod : list prod_row)
  (df_ret : list ret_row) :
  Forall (fun r => is_nan (M2_Produzido r) = false /\ is_nan (M2_Retido r) = false)
    (calcular_df_final META_PCT df_prod df_ret).
Proof.
  apply List.Forall_forall. intros r Hr. unfold calcular_df_final in Hr.
  apply in_map_iff in Hr as [p [<- _]]. unfold linha_final.
  cbn [M2_Produzido M2_Retido]. split; apply fillna0_nao_nan.
Qed.

Lemma fsum_sem_nan (l : list pyfloat) :
  Forall (fun x => is_nan x = false) l -> fsum l = foldr fadd fzero l.
Proof.
  induction 1 as [|x r Hx _ IH]; [reflexivity |].
  rewrite fsum_cons, Hx, IH. reflexivity.
Qed.

(** The second half of C1 as stated fails as well: excluding 'Trinca'
    lowers the total of the summary by 5, the quantity of team B, while the
    excluded rows add up to 12, because team C has no production row. *)
Lemma exclusao_total_contraexemplo :
  let cfg :=
    {| META_PCT := Fin (qz 1); motivo_alvo := ""; motivos_excluir := ["Trinca"] |} in
  feqb (total_retido (calcular_painel (sem_exclusao cfg) producao_exemplo retidos_exemplo))
       (Fin (qz 55)) = true
  /\ feqb (total_retido (calcular_painel cfg producao_exemplo retidos_exemplo))
          (Fin (qz 50)) = true
  /\ feqb (fsum (map rr_m2_real (List.filter (excluida cfg) retidos_exemplo)))
          (Fin (qz 12)) = true.
Proof. repeat split; vm_compute; reflexivity. Qed.

(** The scenario of the specification: 50 retained against a target of
    0.5% of a production of 10000 is within the target. *)
Lemma cenario_dentro_da_meta (float_repr : pyfloat -> string) :
  exists p,
    processar float_repr ["Equipe"; "Forno"; "Metragem"]
      ["Motivo"; "M2"; "Equipe"; "Forno"]
      linhas_producao_exemplo linhas_retidos_exemplo (sem_exclusao config_exemplo)
    = Ok (Painel p)
    /\ map (fun r => (Equipe (t_dados r), t_Status r,
                      feqb (Meta_M2 (t_dados r)) (Fin (qz 50)),
                      feqb (M2_Retido (t_dados r)) (Fin (qz 50))))
         (List.filter (fun r => String.eqb (Linha (t_dados r)) "Linha 4 e 5")
            (pn_df_tabela_final p))
       = [("A", "Dentro da Meta (Verde)", true, true);
          ("Média Geral", "Dentro da Meta (Verde)", true, true)].
Proof. eexists. split; vm_compute; reflexivity. Qed.

(** * Further properties of the code *)

(** ** [mapear_linha]: what decides the line *)

Lemma prefixo_digitos_app (d post : string) :
  PyStr.all_digits d = true -> nao_comeca_com_digito post = true ->
  prefixo_digitos (d ++ post)%string = d.
Proof.
  intros Hd Hp. induction d as [|c r IH]; simpl in *.
  - destruct post as [|c r]; simpl in *; [reflexivity |].
    apply negb_true_iff in Hp. now rewrite Hp.
  - apply andb_true_iff in Hd as [Hc Hr]. rewrite Hc. now rewrite IH.
Qed.

Lemma primeira_sequencia_app (pre d post : string) :
  sem_digitos pre = true -> PyStr.all_digits d = true -> d <> "" ->
  nao_comeca_com_digito post = true ->
  primeira_sequencia (pre ++ d ++ post)%string = Some d.
Proof.
  intros Hpre Hd Hne Hp. induction pre as [|c r IH]; simpl in *.
  - destruct d as [|c r]; [congruence |]. simpl in *.
    apply andb_true_iff in Hd as [Hc Hr]. rewrite Hc.
    now rewrite prefixo_digitos_app.
  - apply andb_true_iff in Hpre as [Hc Hr]. apply negb_true_iff in Hc.
    rewrite Hc. now apply IH.
Qed.



(** *** [str] of an integer and back *)

Lemma digits_value_snoc (s : string) (c : ascii) (a : Z) :
  PyStr.digits_value (s ++ String c "")%string a =
  (10 * PyStr.digits_value s a + PyStr.digit_value c)%Z.
Proof. revert a. induction s as [|x r IH]; intros a; simpl; [reflexivity | apply IH]. Qed.

Lemma all_digits_snoc (s : string) (c : ascii) :
  PyStr.all_digits (s ++ String c "")%string =
  PyStr.all_digits s && PyStr.is_digit c.
Proof.
  induction s as [|x r IH]; simpl; [now rewrite andb_true_r |].
  rewrite IH. now rewrite andb_assoc.
Qed.

Lemma nat_digits_acc (fuel : nat) (n : N) (acc : string) :
  PyStr.nat_digits fuel n acc = (PyStr.nat_digits fuel n "" ++ acc)%string.
Proof.
  revert n acc. induction fuel as [|k IH]; intros n acc; simpl; [reflexivity |].
  destruct (n / 10 =? 0)%N; [reflexivity |].
  rewrite IH. rewrite (IH _ (String _ "")).
  now rewrite append_String_assoc.
Qed.

Lemma digito_decimal (d : N) :
  (d < 10)%N ->
  PyStr.is_digit (ascii_of_N (48 + d)) = true
  /\ PyStr.digit_value (ascii_of_N (48 + d)) = Z.of_N d.
Proof.
  intros H. unfold PyStr.is_digit, PyStr.digit_value, PyStr.code.
  rewrite N_ascii_embedding by lia.
  split; [| lia].
  apply andb_true_iff. split; apply N.leb_le; lia.
Qed.

Lemma nat_digits_S (k : nat) (n : N) (acc : string) :
  PyStr.nat_digits (S k) n acc =
  if (n / 10 =? 0)%N then String (ascii_of_N (48 + n mod 10)) acc
  else PyStr.nat_digits k (n / 10) (String (ascii_of_N (48 + n mod 10)) acc).
Proof. reflexivity. Qed.

(** With enough fuel the digits written for [n] are decimal digits that
    denote [n]. *)
Lemma nat_digits_value (k : nat) (n : N) :
  (n < 10 ^ N.of_nat (S k))%N ->
  PyStr.all_digits (PyStr.nat_digits (S k) n "") = true
  /\ PyStr.nat_digits (S k) n "" <> ""
  /\ PyStr.digits_value (PyStr.nat_digits (S k) n "") 0 = Z.of_N n.
Proof.
  revert n. induction k as [|k IH]; intros n Hn.
  - assert (Hlt : (n < 10)%N) by (change (10 ^ N.of_nat 1)%N with 10%N in Hn; lia).
    assert (Hq : (n / 10 = 0)%N) by now apply N.div_small.
    assert (Hm : (n mod 10 = n)%N) by now apply N.mod_small.
    rewrite nat_digits_S, Hq, Hm. cbn [N.eqb].
    destruct (digito_decimal n Hlt) as [Hd Hv].
    repeat split; simpl; [now rewrite Hd | discriminate | rewrite Hv; lia].
  - rewrite nat_digits_S.
    assert (Hmod : (n mod 10 < 10)%N) by (apply N.mod_lt; lia).
    destruct (digito_decimal _ Hmod) as [Hd Hv].
    destruct (N.eqb_spec (n / 10) 0) as [Hq | Hq].
    + repeat split; simpl; [now rewrite Hd | discriminate |].
      rewrite Hv. pose proof (N.div_mod n 10). lia.
    + rewrite nat_digits_acc.
      destruct (IH (n / 10)%N) as [Ha [Hne Hval]].
      { apply N.Div0.div_lt_upper_bound.
        replace (N.of_nat (S (S k))) with (N.succ (N.of_nat (S k))) in Hn by lia.
        now rewrite N.pow_succ_r' in Hn. }
      repeat split.
      * rewrite all_digits_snoc, Ha, Hd. reflexivity.
      * destruct (PyStr.nat_digits (S k) (n / 10) ""); [congruence | discriminate].
      * rewrite digits_value_snoc, Hval, Hv.
        pose proof (N.div_mod n 10). lia.
Qed.

Lemma fuel_suficiente (n : N) : (n < 10 ^ N.of_nat (S (N.to_nat (N.log2 n))))%N.
Proof.
  replace (N.of_nat (S (N.to_nat (N.log2 n)))) with (N.succ (N.log2 n)) by lia.
  destruct (N.eq_dec n 0%N) as [-> | Hn]; [reflexivity |].
  apply N.lt_le_trans with (2 ^ N.succ (N.log2 n))%N.
  - apply N.log2_spec. lia.
  - apply N.pow_le_mono_l. lia.
Qed.

(** [int(str(n)) = n]: the text written for an integer is an optional sign
    followed by decimal digits that denote its absolute value. *)
Lemma str_of_Z_digitos (z : Z) :
  exists ds, PyStr.str_of_Z z = ((if (z <? 0)%Z then "-" else "") ++ ds)%string
             /\ PyStr.all_digits ds = true /\ ds <> ""
             /\ PyStr.digits_value ds 0 = Z.abs z.
Proof.
  unfold PyStr.str_of_Z.
  destruct (nat_digits_value (N.to_nat (N.log2 (Z.to_N (Z.abs z)))) (Z.to_N (Z.abs z)))
    as [Ha [Hne Hv]]; [apply fuel_suficiente |].
  eexists. split; [| split; [exact Ha | split; [exact Hne |]]].
  - destruct (z <? 0)%Z; reflexivity.
  - rewrite Hv. lia.
Qed.

Lemma append_vazio (s : string) : (s ++ "")%string = s.
Proof. induction s; simpl; congruence. Qed.

(** X2: an integer cell is classified by its absolute value: the sign that
    [str] writes is not a digit, so -11 falls on the same line as 11. *)
Theorem mapear_linha_inteiro (float_repr : pyfloat -> string) (z : Z) :
  mapear_linha float_repr (PInt z) = Ok (tabela_linha (Some (Z.abs z))).
Proof.
  destruct (str_of_Z_digitos z) as [ds [Hs [Ha [Hne Hv]]]].
  rewrite <- Hv, mapear_linha_classificar. unfold classificar. simpl py_str.
  rewrite Hs.
  pose proof (primeira_sequencia_app (if (z <? 0)%Z then "-" else "") ds "") as H.
  rewrite append_vazio in H. rewrite H; auto.
  destruct (z <? 0)%Z; reflexivity.
Qed.

(** ** [limpar_numero]: the numbers it reads *)


Lemma todos_impl (P Q : ascii -> bool) (s : string) :
  (forall c, P c = true -> Q c = true) -> todos P s = true -> todos Q s = true.
Proof.
  intros H. induction s as [|c r IH]; simpl; [reflexivity |].
  intros Hs. apply andb_true_iff in Hs as [Hc Hr].
  rewrite (H c Hc). now apply IH.
Qed.

Ltac por_caractere c :=
  destruct c as [[|] [|] [|] [|] [|] [|] [|] [|]]; vm_compute;
  try reflexivity; try discriminate; try tauto.

Lemma char_numero_classes (c : ascii) :
  char_numero c = true ->
  PyStr.is_space c = false /\ Ascii.eqb c "R" = false /\ Ascii.eqb c " " = false
  /\ Ascii.eqb c "_" = false /\ Ascii.eqb c "+" = false /\ Ascii.eqb c "-" = false
  /\ PyStr.lower_char c = c.
Proof. por_caractere c; intros _; repeat split. Qed.


Lemma lstrip_id (s : string) :
  todos (fun c => negb (PyStr.is_space c)) s = true -> PyStr.lstrip s = s.
Proof.
  destruct s as [|c r]; simpl; [reflexivity |].
  intros H. apply andb_true_iff in H as [Hc _].
  apply negb_true_iff in Hc. now rewrite Hc.
Qed.

Lemma rstrip_id (s : string) :
  todos (fun c => negb (PyStr.is_space c)) s = true -> PyStr.rstrip s = s.
Proof.
  induction s as [|c r IH]; simpl; [reflexivity |].
  intros H. apply andb_true_iff in H as [Hc Hr].
  apply negb_true_iff in Hc. rewrite Hc, (IH Hr). reflexivity.
Qed.

Lemma strip_id (s : string) :
  todos (fun c => negb (PyStr.is_space c)) s = true -> PyStr.strip s = s.
Proof. intros H. unfold PyStr.strip. now rewrite lstrip_id, rstrip_id. Qed.

Lemma replace_id (h : ascii) (t new s : string) :
  todos (fun c => negb (Ascii.eqb c h)) s = true ->
  PyStr.replace (String h t) new s = s.
Proof.
  unfold PyStr.replace. induction s as [|c r IH]; simpl; [reflexivity |].
  intros H. apply andb_true_iff in H as [Hc Hr]. apply negb_true_iff in Hc.
  destruct (ascii_dec h c) as [-> | Hne].
  - now rewrite Ascii.eqb_refl in Hc.
  - now rewrite (IH Hr).
Qed.

Lemma remover_char_id (x : ascii) (s : string) :
  todos (fun c => negb (Ascii.eqb c x)) s = true -> remover_char x s = s.
Proof.
  induction s as [|c r IH]; simpl; [reflexivity |].
  intros H. apply andb_true_iff in H as [Hc Hr]. apply negb_true_iff in Hc.
  now rewrite Hc, (IH Hr).
Qed.







(** On a text of digits, dots and commas the cleaning only drops the dots
    and turns the commas into dots. *)
Lemma limpeza_numero (s : string) :
  todos char_numero s = true ->
  limpeza s = trocar_char "," "." (remover_char "." s).
Proof.
  intros H. unfold limpeza.
  rewrite strip_id, replace_id, (remover_char_id " "); [reflexivity | | |];
    (eapply todos_impl; [| exact H]); intros c Hc;
    destruct (char_numero_classes c Hc) as [H1 [H2 [H3 _]]];
    now rewrite ?H1, ?H2, ?H3.
Qed.






(** *** Reading a decimal numeral *)



Lemma sem_sinal (s : string) :
  match s with
  | EmptyString => True
  | String c _ => Ascii.eqb c "+" = false /\ Ascii.eqb c "-" = false
  end ->
  match s with
  | String "+"%char r => (false, r)
  | String "-"%char r => (true, r)
  | _ => (false, s)
  end = (false, s).
Proof.
  destruct s as [|c r]; [reflexivity |].
  destruct c as [[|] [|] [|] [|] [|] [|] [|] [|]]; vm_compute;
    try reflexivity; intros [H1 H2]; discriminate.
Qed.





Lemma digitos_sem_espaco (d : string) :
  todos char_numero d = true ->
  todos (fun c => negb (PyStr.is_space c)) d = true.
Proof.
  apply todos_impl. intros c Hc.
  destruct (char_numero_classes c Hc) as [-> _]. reflexivity.
Qed.







(** *** The currency marker and the sign *)

Lemma rstrip_prefixo (p s : string) :
  todos (fun c => negb (PyStr.is_space c)) s = true -> s <> "" ->
  PyStr.rstrip (p ++ s)%string = (p ++ s)%string.
Proof.
  intros Hs Hne. induction p as [|x p IH]; [now apply rstrip_id |].
  cbn [String.append PyStr.rstrip]. rewrite IH.
  replace (String.eqb (p ++ s)%string "") with false; [now rewrite andb_false_r |].
  symmetry. apply String.eqb_neq. destruct p; simpl; [exact Hne | discriminate].
Qed.

Lemma replace_moeda (t : string) :
  PyStr.replace "R$" "" ("R$" ++ t)%string = PyStr.replace "R$" "" t.
Proof.
  unfold PyStr.replace. cbn [String.append PyStr.replace_aux String.prefix].
  destruct (ascii_dec "R" "R") as [_ | H]; [| congruence].
  destruct (ascii_dec "$" "$") as [_ | H]; [| congruence].
  rewrite prefix_vazio. reflexivity.
Qed.

Lemma replace_cons_ne (h : ascii) (t new : string) (c : ascii) (s : string) :
  c <> h ->
  PyStr.replace (String h t) new (String c s) =
  String c (PyStr.replace (String h t) new s).
Proof.
  intros Hne. unfold PyStr.replace. cbn [PyStr.replace_aux String.prefix].
  destruct (ascii_dec h c) as [-> | _]; [congruence | reflexivity].
Qed.

Lemma limpeza_moeda (esp s : string) :
  esp = "" \/ esp = " " ->
  todos char_numero s = true ->
  limpeza ("R$" ++ esp ++ s)%string = limpeza s.
Proof.
  intros Hesp Hs.
  pose proof (digitos_sem_espaco s Hs) as Hsp.
  assert (Hr : todos (fun c => negb (Ascii.eqb c "R")) s = true).
  { eapply todos_impl; [| exact Hs]. intros c Hc.
    destruct (char_numero_classes c Hc) as [_ [-> _]]. reflexivity. }
  destruct s as [|c r].
  - destruct Hesp as [-> | ->]; vm_compute; reflexivity.
  - unfold limpeza at 2. rewrite strip_id, replace_id by assumption.
    unfold limpeza, PyStr.strip.
    replace (PyStr.lstrip ("R$" ++ esp ++ String c r)%string)
      with ("R$" ++ esp ++ String c r)%string by reflexivity.
    assert (Hrs : PyStr.rstrip ("R$" ++ esp ++ String c r)%string
                  = ("R$" ++ esp ++ String c r)%string).
    { destruct Hesp as [-> | ->].
      - apply (rstrip_prefixo "R$" (String c r)); [exact Hsp | discriminate].
      - apply (rstrip_prefixo "R$ " (String c r)); [exact Hsp | discriminate]. }
    rewrite Hrs, replace_moeda.
    destruct Hesp as [-> | ->].
    + cbn [String.append]. now rewrite replace_id.
    + cbn [String.append]. rewrite replace_cons_ne by discriminate.
      now rewrite replace_id.
Qed.

(** X5: the currency marker in front of a number written with digits, dots
    and commas, with or without a space after it, does not change what is
    read. *)
Theorem limpar_numero_moeda (float_repr : pyfloat -> string) (s : string) :
  todos char_numero s = true ->
  limpar_numero float_repr (PStr ("R$ " ++ s)%string) =
    limpar_numero float_repr (PStr s)
  /\ limpar_numero float_repr (PStr ("R$" ++ s)%string) =
       limpar_numero float_repr (PStr s).
Proof.
  intros Hs. rewrite !limpar_numero_texto by reflexivity. unfold py_str.
  pose proof (limpeza_moeda " " s (or_intror eq_refl) Hs) as H1.
  pose proof (limpeza_moeda "" s (or_introl eq_refl) Hs) as H2.
  change ("R$" ++ " " ++ s)%string with ("R$ " ++ s)%string in H1.
  change ("R$" ++ "" ++ s)%string with ("R$" ++ s)%string in H2.
  rewrite H1, H2. split; reflexivity.
Qed.

Lemma limpar_numero_moeda_witness :
  limpar_numero (fun _ => "") (PStr ("R$ " ++ "1.234,56")%string) =
  limpar_numero (fun _ => "") (PStr "1.234,56").
Proof.
  apply (limpar_numero_moeda (fun _ => "") "1.234,56"). reflexivity.
Defined.

Lemma limpeza_sinal (s : string) :
  todos char_numero s = true ->
  limpeza (String "-" s) = String "-" (limpeza s)
  /\ todos char_numero (limpeza s) = true.
Proof.
  intros Hs.
  pose proof (digitos_sem_espaco s Hs) as Hsp.
  assert (Hr : todos (fun c => negb (Ascii.eqb c "R")) s = true).
  { eapply todos_impl; [| exact Hs]. intros c Hc.
    destruct (char_numero_classes c Hc) as [_ [-> _]]. reflexivity. }
  assert (He : todos (fun c => negb (Ascii.eqb c " ")) s = true).
  { eapply todos_impl; [| exact Hs]. intros c Hc.
    destruct (char_numero_classes c Hc) as [_ [_ [-> _]]]. reflexivity. }
  split.
  - rewrite (limpeza_numero s Hs). unfold limpeza, PyStr.strip.
    cbn [PyStr.lstrip]. change (PyStr.is_space "-") with false. cbv iota.
    cbn [PyStr.rstrip]. change (PyStr.is_space "-") with false.
    rewrite (rstrip_id s Hsp). cbn [andb].
    rewrite replace_cons_ne by discriminate. rewrite replace_id by assumption.
    cbn [remover_char]. change (Ascii.eqb "-" " ") with false. cbv iota.
    rewrite (remover_char_id " " s He).
    cbn [remover_char trocar_char]. reflexivity.
  - rewrite (limpeza_numero s Hs). clear -Hs.
    induction s as [|c r IH]; [reflexivity |]. simpl in Hs.
    apply andb_true_iff in Hs as [Hc Hr]. specialize (IH Hr).
    cbn [remover_char]. destruct (Ascii.eqb c ".") eqn:E; [exact IH |].
    cbn [trocar_char todos]. rewrite IH, andb_true_r.
    destruct (Ascii.eqb c ","); [reflexivity | exact Hc].
Qed.

Lemma py_float_of_str_menos (t : string) :
  todos char_numero t = true ->
  py_float_of_str (String "-" t) =
  match py_float_of_str t with
  | Ok x => Ok (fopp x)
  | Raise e => Raise e
  end.
Proof.
  intros Ht. pose proof (digitos_sem_espaco t Ht) as Hsp.
  unfold py_float_of_str.
  rewrite (strip_id t Hsp).
  rewrite (strip_id (String "-" t)) by (cbn [todos]; now rewrite Hsp).
  rewrite (sem_sinal t).
  - cbv iota beta zeta.
    destruct (String.eqb (PyStr.lower t) "inf" || String.eqb (PyStr.lower t) "infinity");
      [reflexivity |].
    destruct (String.eqb (PyStr.lower t) "nan"); [reflexivity |].
    destruct (parse_floatnumber t) as [[m e] |]; reflexivity.
  - destruct t as [|c r]; [exact I |]. simpl in Ht.
    apply andb_true_iff in Ht as [Hc _].
    destruct (char_numero_classes c Hc) as [_ [_ [_ [_ [H1 [H2 _]]]]]]. auto.
Qed.

Lemma fopp_fzero : fopp fzero = fzero.
Proof. unfold fopp, fzero. apply f_equal. apply Qc_is_canon. reflexivity. Qed.

(** X6: a minus sign in front of a number written with digits, dots and
    commas negates what is read without it (0.0 stays 0.0 when the text is
    not a number). *)
Theorem limpar_numero_sinal (float_repr : pyfloat -> string) (s : string) :
  todos char_numero s = true ->
  exists v, limpar_numero float_repr (PStr s) = Ok v
            /\ limpar_numero float_repr (PStr (String "-" s)) = Ok (fopp v).
Proof.
  intros Hs. rewrite !limpar_numero_texto by reflexivity. unfold py_str.
  destruct (limpeza_sinal s Hs) as [-> Ht].
  rewrite (py_float_of_str_menos _ Ht).
  destruct (py_float_of_str (limpeza s)) as [x | e]; eexists; split;
    try reflexivity.
Qed.

Lemma limpar_numero_sinal_witness :
  exists v, limpar_numero (fun _ => "") (PStr "1.234,56") = Ok v
            /\ limpar_numero (fun _ => "") (PStr "-1.234,56") = Ok (fopp v).
Proof.
  apply (limpar_numero_sinal (fun _ => "") "1.234,56"). reflexivity.
Defined.

(** ** Row-wise conversions *)




(** ** [identificar_coluna]: what it returns whatever the column names *)

Lemma primeira_coluna_None (kw : string) (columns : list string) :
  primeira_coluna kw (map normalizar columns) = None ->
  forall c, In c columns -> coincide kw c = false.
Proof.
  rewrite primeira_coluna_find.
  destruct (List.find (coincide kw) columns) eqn:E; [discriminate |].
  intros _ c Hc. now apply (find_none _ _ E).
Qed.

(** X7: the column returned is a column of the table, its lower-cased,
    trimmed name contains one of the keywords, and no earlier keyword occurs
    in any column of the table: the priority of the keywords holds even when
    two columns share a normalised name. *)
Theorem identificar_coluna_prioridade (columns keywords : list string)
  (nome c : string) :
  identificar_coluna columns keywords nome = Some c ->
  In c columns
  /\ exists antes kw depois,
       keywords = antes ++ kw :: depois
       /\ coincide kw c = true
       /\ forall k c', In k antes -> In c' columns -> coincide k c' = false.
Proof.
  unfold identificar_coluna.
  induction keywords as [|kw r IH]; simpl; [discriminate |].
  destruct (primeira_coluna kw (map normalizar columns)) as [col|] eqn:E.
  - intros H. apply mapa_cols_lookup in H as [Hin Hk]. split; [exact Hin |].
    exists [], kw, r. repeat split; [| intros k c' []].
    rewrite primeira_coluna_find in E.
    destruct (List.find (coincide kw) columns) as [d|] eqn:F; [| discriminate].
    injection E as <-. apply find_some in F as [_ Hd].
    unfold coincide in *. now rewrite Hk.
  - intros H. destruct (IH H) as [Hin [antes [k [depois [-> [Hk Hant]]]]]].
    split; [exact Hin |]. exists (kw :: antes), k, depois.
    repeat split; [exact Hk |].
    intros k' c' [<- | Hk'] Hc'; [| now apply Hant].
    now apply (primeira_coluna_None _ _ E).
Qed.

Lemma identificar_coluna_prioridade_witness :
  In "Turma/Equipe" ["Turno"; "Turma/Equipe"]
  /\ exists antes kw depois,
       ["equipe"; "team"; "turno"] = antes ++ kw :: depois
       /\ coincide kw "Turma/Equipe" = true
       /\ forall k c', In k antes -> In c' ["Turno"; "Turma/Equipe"] ->
                       coincide k c' = false.
Proof.
  apply (identificar_coluna_prioridade ["Turno"; "Turma/Equipe"]
           ["equipe"; "team"; "turno"] "Equipe" "Turma/Equipe").
  vm_compute. reflexivity.
Defined.

(** X8: the result is [None] exactly when no keyword occurs in the
    lower-cased, trimmed name of any column. *)
Theorem identificar_coluna_ausente (columns keywords : list string) (nome : string) :
  identificar_coluna columns keywords nome = None <->
  forall kw c, In kw keywords -> In c columns ->
               PyStr.contains kw (PyStr.strip (PyStr.lower c)) = false.
Proof. apply identificar_coluna_None. Qed.



(** ** The script when both files are bound *)

Lemma filter_nil_forall {A : Type} (p : A -> bool) (l : list A) :
  (forall x, In x l -> p x = false) -> List.filter p l = [].
Proof.
  induction l as [|x r IH]; intros H; simpl; [reflexivity |].
  rewrite (H x (or_introl eq_refl)). apply IH. intros y Hy. apply H. now right.
Qed.

(** ** The colours of the table and the status *)

Lemma qc_ltb_lt (a b : Qc) : qc_ltb a b = true <-> (a < b)%Qc.
Proof.
  unfold qc_ltb. destruct (Qclt_le_dec a b) as [H | H]; split; auto.
  - discriminate.
  - intros H'. exfalso. now apply (Qcle_not_lt _ _ H).
Qed.

Lemma qc_eqb_eq (a b : Qc) : qc_eqb a b = true <-> a = b.
Proof. unfold qc_eqb. destruct (Qc_eq_dec a b); split; auto; discriminate. Qed.











Lemma fleb_negb_fgtb (x m : pyfloat) :
  is_nan x = false -> is_nan m = false -> fleb x m = negb (fgtb x m).
Proof.
  destruct x as [a| | |], m as [b| | |]; try discriminate; try reflexivity.
  intros _ _. unfold fleb, fgtb, fltb, feqb.
  destruct (Qclt_le_dec b a) as [Hlt | Hle].
  - rewrite (proj2 (qc_ltb_lt b a) Hlt).
    replace (qc_ltb a b) with false.
    2:{ symmetry. apply not_true_is_false. rewrite qc_ltb_lt. intros H.
        apply (Qclt_not_le _ _ Hlt). now apply Qclt_le_weak. }
    replace (qc_eqb a b) with false; [reflexivity |].
    symmetry. apply not_true_is_false. rewrite qc_eqb_eq. intros H.
    rewrite H in Hlt. now apply (Qclt_not_le _ _ Hlt), Qcle_refl.
  - replace (qc_ltb b a) with false.
    2:{ symmetry. apply not_true_is_false. rewrite qc_ltb_lt.
        now apply Qcle_not_lt. }
    destruct (Qcle_lt_or_eq _ _ Hle) as [Hlt | Heq].
    + now rewrite (proj2 (qc_ltb_lt a b) Hlt).
    + now rewrite (proj2 (qc_eqb_eq a b) Heq), orb_true_r.
Qed.

(** X12: the status of a percentage (which colours the bars) and the colour
    of the same percentage in the table agree whenever the percentage is a
    number or an infinity: within the target exactly when green.  For a
    [nan] percentage they differ: the status is 'Fora da Meta (Vermelho)'
    and the colour in the table is green. *)
Theorem status_e_cor_da_tabela (META_PCT v : pyfloat) :
  is_nan META_PCT = false ->
  (is_nan v = false ->
   (definir_status_meta META_PCT v = "Dentro da Meta (Verde)" <->
    cor_pct META_PCT v = verde))
  /\ (is_nan v = true ->
      definir_status_meta META_PCT v = "Fora da Meta (Vermelho)"
      /\ cor_pct META_PCT v = verde).
Proof.
  intros Hm. split.
  - intros Hv. unfold definir_status_meta, cor_pct.
    rewrite (fleb_negb_fgtb v META_PCT Hv Hm).
    destruct (fgtb v META_PCT); simpl; split; (reflexivity || discriminate).
  - destruct v; try discriminate. intros _.
    split; [reflexivity | destruct META_PCT; reflexivity].
Qed.

Lemma status_e_cor_da_tabela_witness :
  definir_status_meta (Fin (Q2Qc (1 # 2))) NaN = "Fora da Meta (Vermelho)"
  /\ cor_pct (Fin (Q2Qc (1 # 2))) NaN = verde.
Proof.
  apply (status_e_cor_da_tabela (Fin (Q2Qc (1 # 2))) NaN); reflexivity.
Defined.

(** ** The headline indicator *)

Lemma filter_inserir {A : Type} (p : A -> bool) (leb : A -> A -> bool) (x : A)
  (l : list A) :
  (forall y, In y l -> p x = true -> p y = true -> leb x y = true) ->
  List.filter p (inserir leb x l) =
  if p x then x :: List.filter p l else List.filter p l.
Proof.
  induction l as [|y r IH]; intros H; simpl; [reflexivity |].
  destruct (leb x y) eqn:E; [reflexivity |].
  simpl. rewrite IH by (intros z Hz; apply H; now right).
  destruct (p x) eqn:Px, (p y) eqn:Py; try reflexivity.
  rewrite (H y (or_introl eq_refl) eq_refl Py) in E. discriminate.
Qed.

(** A stable sort keeps the rows that share the largest key in their
    order. *)
Lemma filter_ordenar {A : Type} (p : A -> bool) (leb : A -> A -> bool) (l : list A) :
  (forall x y, In x l -> In y l -> p x = true -> p y = true -> leb x y = true) ->
  List.filter p (ordenar leb l) = List.filter p l.
Proof.
  induction l as [|x r IH]; intros H; simpl; [reflexivity |].
  rewrite filter_inserir.
  - rewrite IH; [reflexivity |]. intros a b Ha Hb. apply H; now right.
  - intros y Hy. apply ordenar_In in Hy. apply H; [now left | now right].
Qed.

Lemma filter_map_comm {A B : Type} (f : A -> B) (p : B -> bool) (l : list A) :
  List.filter p (map f l) = map f (List.filter (fun x => p (f x)) l).
Proof.
  induction l as [|x r IH]; simpl; [reflexivity |].
  destruct (p (f x)); simpl; now rewrite IH.
Qed.

(** X13: the percentage shown in the headline of a line is that of the
    first row named 'Média Geral' of the line's table: the overall row when
    no team has that name, otherwise the row of the first team named
    'Média Geral', not the overall percentage.  A line without rows shows
    nothing. *)
Theorem indicador_da_linha (META_PCT : pyfloat) (df_original : list agg_row)
  (nome_linha : string) :
  let equipes := List.filter (fun r => String.eqb (Linha r) nome_linha) df_original in
  indicador META_PCT (adicionar_linha_geral df_original nome_linha META_PCT) =
  match equipes with
  | [] => None
  | _ =>
      let val :=
        match List.filter (fun r => String.eqb (Equipe r) media_geral) equipes with
        | r :: _ => Pct_Realizado r
        | [] => Pct_Realizado (linha_geral equipes nome_linha META_PCT)
        end in
      Some (val, fleb val META_PCT)
  end.
Proof.
  intros equipes. unfold indicador. rewrite adicionar_linha_geral_eq. fold equipes.
  destruct equipes as [|e es] eqn:E; [reflexivity |]. rewrite <- E.
  rewrite filter_app, filter_ordenar, filter_map_comm.
  - cbn [g_dados com_ordem].
    destruct (List.filter (fun x => String.eqb (Equipe x) media_geral) equipes)
      as [|r rs]; reflexivity.
  - intros a b Ha Hb Pa Pb.
    apply in_map_iff in Ha as [ra [<- _]]. apply in_map_iff in Hb as [rb [<- _]].
    apply geral_leb_ultima. now apply String.eqb_eq in Pb.
Qed.

(** ** Targets and balances add up *)







(** ** The reason drill-down *)



Section Contagem.

Context {A K : Type} `{EqDecision K} (leb : K -> K -> bool).
Context (key : A -> option K).

Lemma procurar_groupby_size_In (df : list A) (k : K) :
  (exists r, In r df /\ key r = Some k) ->
  procurar k (groupby_size leb key df) = Some (Z.of_nat (length (grupo key df k))).
Proof.
  intros H0. unfold groupby_size.
  apply (procurar_map_In (fun k => Z.of_nat (length (grupo key df k)))).
  now apply chaves_In.
Qed.

Lemma procurar_groupby_size_notin (df : list A) (k : K) :
  (forall r, In r df -> key r <> Some k) ->
  procurar k (groupby_size leb key df) = None.
Proof.
  intros H0. unfold groupby_size.
  apply procurar_map_notin with (f := fun k => Z.of_nat (length (grupo key df k)));
    [exact leb |].
  rewrite chaves_In. intros [r [Hr Hk]]. now apply (H0 r).
Qed.



End Contagem.

Lemma linha_spec_grupo (df_spec : list ret_row) (e : string) :
  linha_spec (groupby_sum String.leb rr_Equipe rr_m2_real df_spec)
             (groupby_size String.leb rr_Equipe df_spec) e =
  {| s_Equipe := e;
     s_M2_Retido := fillna0 (fsum (map rr_m2_real (grupo rr_Equipe df_spec e)));
     s_Qtd_Ocorrencias := Z.of_nat (length (grupo rr_Equipe df_spec e)) |}.
Proof.
  unfold linha_spec.
  destruct (chave_decidivel rr_Equipe df_spec e) as [Hin | Hout].
  - now rewrite procurar_groupby_sum_In, procurar_groupby_size_In.
  - rewrite procurar_groupby_sum_notin, procurar_groupby_size_notin by exact Hout.
    now rewrite grupo_vazio.
Qed.



Lemma filter_todos {A : Type} (p : A -> bool) (l : list A) :
  (forall x, In x l -> p x = true) -> List.filter p l = l.
Proof.
  induction l as [|x r IH]; intros Hp; simpl; [reflexivity |].
  rewrite (Hp x (or_introl eq_refl)). f_equal. apply IH. intros y Hy. apply Hp.
  now right.
Qed.





Lemma calcular_spec_final_Ok (df_prod : list prod_row) (df_ret : list ret_row)
  (motivo_alvo : string) (spec_final : list spec_row) :
  calcular_spec_final df_prod df_ret motivo_alvo = Ok spec_final ->
  exists equipes,
    todas_equipes df_prod = Ok equipes
    /\ spec_final =
       map (linha_spec
              (groupby_sum String.leb rr_Equipe rr_m2_real
                 (calcular_df_spec df_ret motivo_alvo))
              (groupby_size String.leb rr_Equipe
                 (calcular_df_spec df_ret motivo_alvo))) equipes.
Proof.
  unfold calcular_spec_final.
  destruct (todas_equipes df_prod) as [equipes|] eqn:E; cbn [bind]; [| discriminate].
  intros H. injection H as <-. now exists equipes.
Qed.

(** X17: a team of the production file without a retained row of the
    selected reason is shown with quantity 0 and 0 occurrences, and both of
    its bars are green whatever the two switches, because the limits entered
    in the sidebar are not negative. *)
Theorem equipe_sem_ocorrencias (df_prod : list prod_row) (df_ret : list ret_row)
  (motivo_alvo : string) (spec_final : list spec_row) (r : spec_row)
  (USAR_META_M2 USAR_META_FREQ : bool) (META_ABSOLUTA_M2 : Qc) (META_FREQ_QTD : Z) :
  calcular_spec_final df_prod df_ret motivo_alvo = Ok spec_final ->
  In r spec_final ->
  (forall x, In x df_ret -> rr_motivo x = Some motivo_alvo ->
             rr_Equipe x <> Some (s_Equipe r)) ->
  (0 <= META_ABSOLUTA_M2)%Qc ->
  (0 <= META_FREQ_QTD)%Z ->
  s_M2_Retido r = fzero
  /\ s_Qtd_Ocorrencias r = 0%Z
  /\ cor_m2 USAR_META_M2 (Fin META_ABSOLUTA_M2) (s_M2_Retido r) = verde
  /\ cor_qtd USAR_META_FREQ META_FREQ_QTD (s_Qtd_Ocorrencias r) = verde.
Proof.
  intros Hok Hin Hsem Hm2 Hqtd.
  apply calcular_spec_final_Ok in Hok as [equipes [_ ->]].
  apply in_map_iff in Hin as [e [<- _]].
  rewrite linha_spec_grupo in *. cbn [s_Equipe s_M2_Retido s_Qtd_Ocorrencias] in *.
  rewrite grupo_vazio.
  2:{ intros x Hx. unfold calcular_df_spec in Hx. apply filter_In in Hx as [Hx Hmot].
      apply bool_decide_eq_true in Hmot. now apply Hsem. }
  cbn [map length]. change (fsum []) with fzero. change (fillna0 fzero) with fzero.
  repeat apply conj; try reflexivity.
  - unfold cor_m2, fleb, fltb, feqb, fzero. rewrite qz_0.
    destruct (Qcle_lt_or_eq _ _ Hm2) as [Hlt | <-].
    + apply qc_ltb_lt in Hlt. now rewrite Hlt.
    + assert (He : qc_eqb 0 0 = true) by now apply qc_eqb_eq.
      rewrite He, orb_true_r. reflexivity.
  - unfold cor_qtd. apply Z.leb_le in Hqtd.
    change (Z.of_nat 0) with 0%Z. now rewrite Hqtd.
Qed.

Lemma equipe_sem_ocorrencias_witness :
  exists spec_final r,
    calcular_spec_final producao_exemplo retidos_exemplo "Trinca" = Ok spec_final
    /\ In r spec_final
    /\ s_Equipe r = "A"
    /\ cor_m2 true (Fin (qz 100)) (s_M2_Retido r) = verde
    /\ cor_qtd true 10 (s_Qtd_Ocorrencias r) = verde.
Proof.
  destruct (calcular_spec_final producao_exemplo retidos_exemplo "Trinca")
    as [[|r l]|] eqn:E; try (vm_compute in E; discriminate E).
  assert (Hr : r = nth 0 (match calcular_spec_final producao_exemplo retidos_exemplo
                                  "Trinca" with
                          | Ok t => t
                          | Raise _ => []
                          end) r)
    by (rewrite E; reflexivity).
  assert (HA : s_Equipe r = "A") by (rewrite Hr; vm_compute; reflexivity).
  exists (r :: l), r.
  destruct (equipe_sem_ocorrencias producao_exemplo retidos_exemplo "Trinca"
              (r :: l) r true true (qz 100) 10 E) as [_ [_ [H1 H2]]].
  - now left.
  - rewrite HA. intros x Hx Hmot.
    destruct Hx as [<- | [<- | [<- | []]]]; cbn in Hmot |- *; congruence.
  - vm_compute. discriminate.
  - lia.
  - repeat apply conj; [reflexivity | now left | exact HA | exact H1 | exact H2].
Defined.

(** ** The monthly evolution chart *)

Section Juncao.

Context {K V B : Type} `{EqDecision K}.

Lemma valores_app (k : K) (l1 l2 : list (K * V)) :
  valores k (l1 ++ l2) = (valores k l1 ++ valores k l2)%list.
Proof. unfold valores. now rewrite List.filter_app, map_app. Qed.

Lemma valores_notin (k : K) (l : list (K * V)) :
  ~ In k (map fst l) -> valores k l = [].
Proof.
  intros Hn. unfold valores. rewrite filter_nil_forall; [reflexivity |].
  intros x Hx. apply bool_decide_eq_false. intros <-. apply Hn.
  now apply in_map.
Qed.

Lemma valores_In (k : K) (l : list (K * V)) :
  In k (map fst l) -> valores k l <> [].
Proof.
  intros Hin. apply in_map_iff in Hin as [[k' v] [Hk Hin]]. simpl in Hk. subst k'.
  unfold valores. intros Hn. apply map_eq_nil in Hn.
  assert (Hf : In (k, v) (List.filter (fun p => bool_decide (fst p = k)) l)).
  { apply filter_In. split; [exact Hin |]. now apply bool_decide_eq_true. }
  rewrite Hn in Hf. destruct Hf.
Qed.

Lemma valores_map_In (f : K -> V) (k : K) (ks : list K) :
  List.NoDup ks -> In k ks -> valores k (map (fun k => (k, f k)) ks) = [f k].
Proof.
  intros Hnd. unfold valores. induction Hnd as [|x r Hx _ IH]; intros Hin; simpl.
  - destruct Hin.
  - case_bool_decide as E; simpl in E.
    + subst x. cbn [map snd]. f_equal.
      rewrite filter_nil_forall; [reflexivity |].
      intros y Hy. apply bool_decide_eq_false. intros <-.
      apply in_map_iff in Hy as [k' [<- Hk']]. simpl in Hx. contradiction.
    + apply IH. destruct Hin as [-> | Hin]; [contradiction | exact Hin].
Qed.

Lemma valores_map_notin (f : K -> V) (k : K) (ks : list K) :
  ~ In k ks -> valores k (map (fun k => (k, f k)) ks) = [].
Proof.
  intros Hn. apply valores_notin. rewrite map_map. simpl. now rewrite map_id.
Qed.

Lemma filter_flat_map_In (g : K -> list B) (chave_de_b : B -> K) (ks : list K)
  (k : K) :
  (forall k' b, In b (g k') -> chave_de_b b = k') ->
  List.NoDup ks -> In k ks ->
  List.filter (fun b => bool_decide (chave_de_b b = k)) (flat_map g ks) = g k.
Proof.
  intros Hg Hnd. induction Hnd as [|x r Hx _ IH]; intros Hin; simpl.
  - destruct Hin.
  - rewrite List.filter_app.
    destruct (decide (x = k)) as [-> | Hne].
    + rewrite filter_todos
        by (intros b Hb; apply bool_decide_eq_true; now apply Hg).
      rewrite filter_nil_forall; [apply app_nil_r |].
      intros b Hb. apply bool_decide_eq_false. intros <-.
      apply in_flat_map in Hb as [k' [Hk' Hb]]. rewrite (Hg k' b Hb) in Hx.
      contradiction.
    + rewrite filter_nil_forall.
      2:{ intros b Hb. apply bool_decide_eq_false. rewrite (Hg x b Hb). exact Hne. }
      apply IH. destruct Hin as [-> | Hin]; [contradiction | exact Hin].
Qed.

Lemma filter_flat_map_notin (g : K -> list B) (chave_de_b : B -> K) (ks : list K)
  (k : K) :
  (forall k' b, In b (g k') -> chave_de_b b = k') ->
  ~ In k ks ->
  List.filter (fun b => bool_decide (chave_de_b b = k)) (flat_map g ks) = [].
Proof.
  intros Hg Hn. apply filter_nil_forall. intros b Hb. apply bool_decide_eq_false.
  intros <-. apply in_flat_map in Hb as [k' [Hk' Hb]]. rewrite (Hg k' b Hb) in Hn.
  contradiction.
Qed.

End Juncao.

Lemma valores_groupby_sum {A K : Type} `{EqDecision K} (leb : K -> K -> bool)
  (key : A -> option K) (val : A -> pyfloat) (df : list A) (k : K) :
  valores k (groupby_sum leb key val df) =
  match grupo key df k with
  | [] => []
  | g => [fsum (map val g)]
  end.
Proof.
  assert (Heq : groupby_sum leb key val df =
                map (fun k => (k, fsum (map val (grupo key df k))))
                  (ordenar leb (remove_dups (omap key df)))) by reflexivity.
  rewrite Heq.
  destruct (chave_decidivel key df k) as [[r [Hr Hk]] | Hn].
  - rewrite valores_map_In; [| apply chaves_NoDup | apply chaves_In; now exists r].
    destruct (grupo key df k) as [|x g] eqn:E; [| reflexivity].
    exfalso. assert (Hf : In r (grupo key df k)).
    { apply filter_In. split; [exact Hr |]. now apply bool_decide_eq_true. }
    rewrite E in Hf. destruct Hf.
  - rewrite valores_map_notin.
    + now rewrite grupo_vazio.
    + rewrite chaves_In. intros [r [Hr Hk]]. now apply (Hn r).
Qed.

Lemma valores_com_media_geral (tot : list (string * pyfloat)) (m e : string) :
  valores (m, e) (com_media_geral tot) =
  if String.eqb e media_geral then valores m tot else [].
Proof.
  unfold valores, com_media_geral.
  destruct (String.eqb_spec e media_geral) as [He | Hne].
  - induction tot as [|[m' v] r IH]; [reflexivity |].
    cbn [map List.filter fst snd].
    case_bool_decide as E1; case_bool_decide as E2.
    + cbn [map snd]. now rewrite IH.
    + exfalso. apply E2. congruence.
    + exfalso. apply E1. congruence.
    + exact IH.
  - induction tot as [|[m' v] r IH]; [reflexivity |].
    cbn [map List.filter fst snd].
    case_bool_decide as E1; [| exact IH].
    exfalso. apply Hne. congruence.
Qed.

Lemma merge_outer_chave (esq dir : list (chave * pyfloat)) (k : chave) :
  List.filter (fun t => bool_decide (fst (fst t) = k)) (merge_outer esq dir) =
  match valores k esq, valores k dir with
  | [], [] => []
  | ls, rs => flat_map (fun p => map (fun r => (k, p, r)) (ou_nan rs)) (ou_nan ls)
  end.
Proof.
  unfold merge_outer.
  assert (Hg : forall k' (t : chave * pyfloat * pyfloat),
             In t (flat_map (fun p => map (fun r => (k', p, r)) (ou_nan (valores k' dir)))
                     (ou_nan (valores k' esq))) -> fst (fst t) = k').
  { intros k' t Ht. apply in_flat_map in Ht as [p [_ Ht]].
    apply in_map_iff in Ht as [r [<- _]]. reflexivity. }
  assert (Hnd : List.NoDup (ordenar chave_leb
                              (remove_dups (map fst esq ++ map fst dir)))).
  { eapply Permutation_NoDup; [symmetry; apply ordenar_perm |].
    apply NoDup_ListNoDup, NoDup_remove_dups. }
  assert (Hin : In k (ordenar chave_leb (remove_dups (map fst esq ++ map fst dir)))
                <-> In k (map fst esq) \/ In k (map fst dir)).
  { rewrite ordenar_In, <- list_elem_of_In, elem_of_remove_dups, list_elem_of_In.
    apply in_app_iff. }
  destruct (decide (k ∈ map fst esq)) as [Hl | Hl];
    [| destruct (decide (k ∈ map fst dir)) as [Hr | Hr]];
    rewrite list_elem_of_In in *.
  - rewrite (filter_flat_map_In _ (fun t : chave * pyfloat * pyfloat => fst (fst t)))
      by (try assumption; apply Hin; now left).
    pose proof (valores_In k esq Hl) as Hv.
    destruct (valores k esq) as [|a ls]; [congruence | reflexivity].
  - rewrite (filter_flat_map_In _ (fun t : chave * pyfloat * pyfloat => fst (fst t)))
      by (try assumption; apply Hin; now right).
    pose proof (valores_In k dir Hr) as Hv.
    destruct (valores k dir) as [|b rs]; [congruence |].
    destruct (valores k esq); reflexivity.
  - rewrite (filter_flat_map_notin _ (fun t : chave * pyfloat * pyfloat => fst (fst t)))
      by (try assumption; rewrite Hin; tauto).
    now rewrite (valores_notin k esq Hl), (valores_notin k dir Hr).
Qed.

Lemma valores_p (df_p : list prod_mes) (m e : string) :
  valores (m, e) (p_eq df_p ++ p_tot df_p) =
  (match grupo (fun r => chave_mes (pm_mes_ano r) (pr_Equipe (pm_linha r))) df_p (m, e)
   with
   | [] => []
   | g => [fsum (map (fun r => pr_metragem_real (pm_linha r)) g)]
   end
   ++
   if String.eqb e media_geral then
     match grupo pm_mes_ano df_p m with
     | [] => []
     | g => [fsum (map (fun r => pr_metragem_real (pm_linha r)) g)]
     end
   else [])%list.
Proof.
  rewrite valores_app. unfold p_eq. rewrite valores_groupby_sum. f_equal.
  unfold p_tot. destruct df_p as [|x r]; [now destruct (String.eqb e media_geral) |].
  now rewrite valores_com_media_geral, valores_groupby_sum.
Qed.

Lemma valores_r (df_r : list ret_mes) (m e : string) :
  valores (m, e) (r_eq df_r ++ r_tot df_r) =
  (match grupo (fun r => chave_mes (rm_mes_ano r) (rr_Equipe (rm_linha r))) df_r (m, e)
   with
   | [] => []
   | g => [fsum (map (fun r => rr_m2_real (rm_linha r)) g)]
   end
   ++
   if String.eqb e media_geral then
     match grupo rm_mes_ano df_r m with
     | [] => []
     | g => [fsum (map (fun r => rr_m2_real (rm_linha r)) g)]
     end
   else [])%list.
Proof.
  rewrite valores_app. unfold r_eq. rewrite valores_groupby_sum. f_equal.
  unfold r_tot. destruct df_r as [|x r]; [now destruct (String.eqb e media_geral) |].
  now rewrite valores_com_media_geral, valores_groupby_sum.
Qed.

Lemma chave_mes_Some (mes equipe : option string) (m e : string) :
  bool_decide (chave_mes mes equipe = Some (m, e)) =
  bool_decide (mes = Some m) && bool_decide (equipe = Some e).
Proof.
  destruct mes as [m'|], equipe as [e'|]; simpl;
    repeat case_bool_decide; try reflexivity; try congruence.
Qed.

Lemma grupo_producao_equipe (df_prod : list prod_mes) (nome_linha m e : string) :
  grupo (fun r => chave_mes (pm_mes_ano r) (pr_Equipe (pm_linha r)))
    (List.filter (fun r => String.eqb (pr_Linha (pm_linha r)) nome_linha) df_prod) (m, e)
  = producao_da_equipe e (producao_do_mes df_prod nome_linha m).
Proof.
  unfold grupo, producao_da_equipe, producao_do_mes. rewrite !filter_filter.
  apply List.filter_ext. intros r. rewrite chave_mes_Some. apply andb_assoc.
Qed.

Lemma grupo_retidos_equipe (df_ret : list ret_mes) (nome_linha m e : string) :
  grupo (fun r => chave_mes (rm_mes_ano r) (rr_Equipe (rm_linha r)))
    (List.filter (fun r => String.eqb (rr_Linha (rm_linha r)) nome_linha) df_ret) (m, e)
  = retidos_da_equipe e (retidos_do_mes df_ret nome_linha m).
Proof.
  unfold grupo, retidos_da_equipe, retidos_do_mes. rewrite !filter_filter.
  apply List.filter_ext. intros r. rewrite chave_mes_Some. apply andb_assoc.
Qed.

Lemma grupo_producao_mes (df_prod : list prod_mes) (nome_linha m : string) :
  grupo pm_mes_ano
    (List.filter (fun r => String.eqb (pr_Linha (pm_linha r)) nome_linha) df_prod) m
  = producao_do_mes df_prod nome_linha m.
Proof. unfold grupo, producao_do_mes. now rewrite filter_filter. Qed.

Lemma grupo_retidos_mes (df_ret : list ret_mes) (nome_linha m : string) :
  grupo rm_mes_ano
    (List.filter (fun r => String.eqb (rr_Linha (rm_linha r)) nome_linha) df_ret) m
  = retidos_do_mes df_ret nome_linha m.
Proof. unfold grupo, retidos_do_mes. now rewrite filter_filter. Qed.

Lemma evol_leb_mesma_chave (meta_pct : pyfloat) (a b : chave * pyfloat * pyfloat) :
  ev_chave (linha_evolucao meta_pct a) = ev_chave (linha_evolucao meta_pct b) ->
  evol_leb (linha_evolucao meta_pct a) (linha_evolucao meta_pct b) = true.
Proof.
  unfold ev_chave, linha_evolucao, barra, evol_leb.
  cbn [ev_mes_ano ev_Equipe ev_Ordem_Equipe]. intros H. injection H as -> ->.
  rewrite string_compare_refl, Z.ltb_irrefl. apply string_leb_refl.
Qed.

(** The rows of the chart that have a given key. *)
Lemma evolucao_por_chave (df_prod : list prod_mes) (df_ret : list ret_mes)
  (nome_linha : string) (meta_pct : pyfloat) (tabela : list evol_row) (k : chave) :
  criar_grafico_evolucao_com_geral df_prod df_ret nome_linha meta_pct = Some tabela ->
  let df_p :=
    List.filter (fun r => String.eqb (pr_Linha (pm_linha r)) nome_linha) df_prod in
  let df_r :=
    List.filter (fun r => String.eqb (rr_Linha (rm_linha r)) nome_linha) df_ret in
  List.filter (fun r => bool_decide (ev_chave r = k)) tabela =
  map (linha_evolucao meta_pct)
    match valores k (p_eq df_p ++ p_tot df_p), valores k (r_eq df_r ++ r_tot df_r) with
    | [], [] => []
    | ls, rs => flat_map (fun p => map (fun r => (k, p, r)) (ou_nan rs)) (ou_nan ls)
    end.
Proof.
  intros Hc df_p df_r.
  assert (Ht : tabela =
               ordenar evol_leb
                 (map (linha_evolucao meta_pct)
                    (merge_outer (p_eq df_p ++ p_tot df_p) (r_eq df_r ++ r_tot df_r)))).
  { unfold criar_grafico_evolucao_com_geral in Hc. fold df_p df_r in Hc.
    destruct df_p, df_r; try discriminate; now injection Hc as <-. }
  rewrite Ht, filter_ordenar.
  - rewrite filter_map_comm, <- merge_outer_chave. f_equal.
    apply List.filter_ext. intros [[[m e] p] r]. reflexivity.
  - intros x y Hx Hy Px Py.
    apply in_map_iff in Hx as [a [<- _]]. apply in_map_iff in Hy as [b [<- _]].
    apply bool_decide_eq_true in Px, Py. apply evol_leb_mesma_chave. congruence.
Qed.

(** X18: in the evolution chart of a line, a month and a team whose name is
    not 'Média Geral' have a bar exactly when the production table or the
    retained table has a row of that line, month and team, and then exactly
    one: it shows the sum of the produced quantities and the sum of the
    retained quantities of those rows, 0 for the table that has none.  A
    team that is only in the retained file is therefore shown, with target
    0. *)
Theorem evolucao_barra_da_equipe (df_prod : list prod_mes) (df_ret : list ret_mes)
  (nome_linha : string) (meta_pct : pyfloat) (tabela : list evol_row) (m e : string) :
  criar_grafico_evolucao_com_geral df_prod df_ret nome_linha meta_pct = Some tabela ->
  e <> media_geral ->
  let prod := producao_da_equipe e (producao_do_mes df_prod nome_linha m) in
  let ret := retidos_da_equipe e (retidos_do_mes df_ret nome_linha m) in
  List.filter (fun r => bool_decide (ev_chave r = (m, e))) tabela =
  match prod, ret with
  | [], [] => []
  | _, _ => [barra meta_pct m e (total_produzido prod) (total_retido_mes ret)]
  end.
Proof.
  intros Hc Hne prod ret.
  rewrite (evolucao_por_chave _ _ _ _ _ (m, e) Hc), valores_p, valores_r.
  apply String.eqb_neq in Hne. rewrite Hne, !app_nil_r.
  rewrite grupo_producao_equipe, grupo_retidos_equipe. fold prod ret.
  destruct prod as [|p ps], ret as [|r rs]; reflexivity.
Qed.

Lemma evolucao_barra_da_equipe_witness :
  exists tabela,
    criar_grafico_evolucao_com_geral producao_mensal_exemplo retidos_mensal_exemplo
      "Linha 6" (Fin (Q2Qc (1 # 2))) = Some tabela
    /\ List.filter (fun r => bool_decide (ev_chave r = ("2024-01", "C"))) tabela =
       [barra (Fin (Q2Qc (1 # 2))) "2024-01" "C" fzero (Fin (qz 4))].
Proof.
  destruct (criar_grafico_evolucao_com_geral producao_mensal_exemplo
              retidos_mensal_exemplo "Linha 6" (Fin (Q2Qc (1 # 2))))
    as [tabela|] eqn:E; [| vm_compute in E; discriminate E].
  exists tabela. split; [reflexivity |].
  rewrite (evolucao_barra_da_equipe producao_mensal_exemplo retidos_mensal_exemplo
             "Linha 6" (Fin (Q2Qc (1 # 2))) tabela "2024-01" "C" E).
  - vm_compute. reflexivity.
  - vm_compute. discriminate.
Defined.

(** X19: the bar 'Média Geral' of a month shows the sums over all the rows
    of the line and month, the rows without a team included (the team bars
    leave those out), provided no team of that month is itself named 'Média
    Geral'; there is one such bar for every month that occurs in a row of
    the line in either table. *)
Theorem evolucao_barra_geral (df_prod : list prod_mes) (df_ret : list ret_mes)
  (nome_linha : string) (meta_pct : pyfloat) (tabela : list evol_row) (m : string) :
  criar_grafico_evolucao_com_geral df_prod df_ret nome_linha meta_pct = Some tabela ->
  producao_da_equipe media_geral (producao_do_mes df_prod nome_linha m) = [] ->
  retidos_da_equipe media_geral (retidos_do_mes df_ret nome_linha m) = [] ->
  let prod := producao_do_mes df_prod nome_linha m in
  let ret := retidos_do_mes df_ret nome_linha m in
  List.filter (fun r => bool_decide (ev_chave r = (m, media_geral))) tabela =
  match prod, ret with
  | [], [] => []
  | _, _ => [barra meta_pct m media_geral (total_produzido prod) (total_retido_mes ret)]
  end.
Proof.
  intros Hc Hp Hr prod ret.
  rewrite (evolucao_por_chave _ _ _ _ _ (m, media_geral) Hc), valores_p, valores_r.
  rewrite String.eqb_refl.
  rewrite grupo_producao_equipe, grupo_retidos_equipe, Hp, Hr.
  rewrite grupo_producao_mes, grupo_retidos_mes. fold prod ret. cbn [app].
  destruct prod as [|p ps], ret as [|r rs]; reflexivity.
Qed.

Lemma evolucao_barra_geral_witness :
  exists tabela,
    criar_grafico_evolucao_com_geral producao_mensal_exemplo retidos_mensal_exemplo
      "Linha 6" (Fin (Q2Qc (1 # 2))) = Some tabela
    /\ List.filter (fun r => bool_decide (ev_chave r = ("2024-01", media_geral)))
         tabela =
       [barra (Fin (Q2Qc (1 # 2))) "2024-01" media_geral (Fin (qz 1500)) (Fin (qz 7))].
Proof.
  destruct (criar_grafico_evolucao_com_geral producao_mensal_exemplo
              retidos_mensal_exemplo "Linha 6" (Fin (Q2Qc (1 # 2))))
    as [tabela|] eqn:E; [| vm_compute in E; discriminate E].
  exists tabela. split; [reflexivity |].
  rewrite (evolucao_barra_geral producao_mensal_exemplo retidos_mensal_exemplo
             "Linha 6" (Fin (Q2Qc (1 # 2))) tabela "2024-01" E).
  - vm_compute. reflexivity.
  - vm_compute. reflexivity.
  - vm_compute. reflexivity.
Defined.

Lemma evol_leb_antes (a b : evol_row) : evol_leb a b = true -> antes a b.
Proof.
  unfold evol_leb, antes, String.leb.
  destruct (String.compare (ev_mes_ano a) (ev_mes_ano b)) eqn:E;
    [| | intros H; discriminate H].
  - intros H. split; [reflexivity |]. intros _.
    destruct (Z.ltb_spec (ev_Ordem_Equipe a) (ev_Ordem_Equipe b)) as [Hlt | Hge].
    + split; lia.
    + destruct (Z.ltb_spec (ev_Ordem_Equipe b) (ev_Ordem_Equipe a)); [discriminate |].
      split; [lia | intros _; exact H].
  - intros _. split; [reflexivity |]. intros Heq. rewrite Heq in E.
    rewrite string_compare_refl in E. discriminate.
Qed.

Lemma evol_leb_total (a b : evol_row) : evol_leb a b = false -> evol_leb b a = true.
Proof.
  unfold evol_leb. rewrite (String.compare_antisym (ev_mes_ano a) (ev_mes_ano b)).
  destruct (String.compare (ev_mes_ano b) (ev_mes_ano a)); cbn [CompOpp];
    intros H; try discriminate H; try reflexivity.
  revert H.
  destruct (Z.ltb_spec (ev_Ordem_Equipe a) (ev_Ordem_Equipe b)); [discriminate |].
  destruct (Z.ltb_spec (ev_Ordem_Equipe b) (ev_Ordem_Equipe a)); [reflexivity |].
  apply string_leb_total.
Qed.

Lemma antes_trans (a b c : evol_row) : antes a b -> antes b c -> antes a c.
Proof.
  intros [Hab Hab'] [Hbc Hbc']. split; [now apply (string_leb_trans _ _ _ Hab) |].
  intros Hac. rewrite <- Hac in Hbc.
  assert (Hm : ev_mes_ano a = ev_mes_ano b) by now apply String.leb_antisym.
  destruct (Hab' Hm) as [H1 H2]. destruct (Hbc' ltac:(congruence)) as [H3 H4].
  split; [lia |]. intros Ho.
  apply (string_leb_trans _ (ev_Equipe b)); [apply H2 | apply H4]; lia.
Qed.

Lemma evolucao_ordenada (df_prod : list prod_mes) (df_ret : list ret_mes)
  (nome_linha : string) (meta_pct : pyfloat) (tabela : list evol_row) :
  criar_grafico_evolucao_com_geral df_prod df_ret nome_linha meta_pct = Some tabela ->
  StronglySorted antes tabela
  /\ Forall (fun r => ev_Ordem_Equipe r = ordem (ev_Equipe r)) tabela.
Proof.
  intros Hc. unfold criar_grafico_evolucao_com_geral in Hc.
  set (df_final := map (linha_evolucao meta_pct) _) in Hc.
  assert (Ht : tabela = ordenar evol_leb df_final).
  { destruct (List.filter _ df_prod), (List.filter _ df_ret);
      try discriminate; now injection Hc as <-. }
  subst tabela. split.
  - apply Sorted_StronglySorted; [intros a b c; apply antes_trans |].
    eapply Sorted_weaken with (P := fun _ => True);
      [| apply List.Forall_forall; intros; exact I
       | apply ordenar_sorted, evol_leb_total].
    intros a b _ _. apply evol_leb_antes.
  - apply List.Forall_forall. intros r Hr. apply ordenar_In in Hr.
    apply in_map_iff in Hr as [t [<- _]]. reflexivity.
Qed.

Lemma StronglySorted_sufixo {A : Type} (R : A -> A -> Prop) (l1 l2 : list A) :
  StronglySorted R (l1 ++ l2) -> StronglySorted R l2.
Proof.
  induction l1 as [|x r IH]; [trivial |]. simpl. intros H.
  apply StronglySorted_inv in H as [H _]. now apply IH.
Qed.

(** X20: the bars of the evolution chart are in ascending order of the
    month; within a month the bar 'Média Geral' comes after the bars of the
    teams, and the teams are in ascending order of their names. *)
Theorem evolucao_ordem (df_prod : list prod_mes) (df_ret : list ret_mes)
  (nome_linha : string) (meta_pct : pyfloat) (tabela l1 l2 l3 : list evol_row)
  (a b : evol_row) :
  criar_grafico_evolucao_com_geral df_prod df_ret nome_linha meta_pct = Some tabela ->
  tabela = (l1 ++ a :: l2 ++ b :: l3)%list ->
  String.leb (ev_mes_ano a) (ev_mes_ano b) = true
  /\ (ev_mes_ano a = ev_mes_ano b ->
      (ev_Equipe a = media_geral -> ev_Equipe b = media_geral)
      /\ (ev_Equipe b <> media_geral ->
          String.leb (ev_Equipe a) (ev_Equipe b) = true)).
Proof.
  intros Hc Ht. destruct (evolucao_ordenada _ _ _ _ _ Hc) as [Hs Ho]. subst tabela.
  rewrite List.Forall_forall in Ho.
  assert (Ha : ev_Ordem_Equipe a = ordem (ev_Equipe a))
    by (apply Ho, in_or_app; right; now left).
  assert (Hb : ev_Ordem_Equipe b = ordem (ev_Equipe b)).
  { apply Ho, in_or_app. right. right. apply in_or_app. right. now left. }
  assert (Hab : antes a b).
  { apply StronglySorted_sufixo in Hs.
    apply StronglySorted_inv in Hs as [_ Hall].
    rewrite List.Forall_forall in Hall. apply Hall, in_or_app. right. now left. }
  destruct Hab as [Hm Hr]. split; [exact Hm |]. intros Heq.
  destruct (Hr Heq) as [Hle Hnome]. rewrite Ha, Hb in Hle, Hnome.
  destruct (ordem_cases (ev_Equipe a)) as [[Ea Oa] | [Ea Oa]];
    destruct (ordem_cases (ev_Equipe b)) as [[Eb Ob] | [Eb Ob]];
    rewrite Oa, Ob in *; split; intros; try congruence; try lia.
  apply Hnome. reflexivity.
Qed.

Lemma evolucao_ordem_witness :
  exists tabela a b l3,
    criar_grafico_evolucao_com_geral producao_mensal_exemplo retidos_mensal_exemplo
      "Linha 6" (Fin (Q2Qc (1 # 2))) = Some tabela
    /\ tabela = a :: b :: l3
    /\ String.leb (ev_mes_ano a) (ev_mes_ano b) = true.
Proof.
  destruct (criar_grafico_evolucao_com_geral producao_mensal_exemplo
              retidos_mensal_exemplo "Linha 6" (Fin (Q2Qc (1 # 2))))
    as [[|a [|b l3]]|] eqn:E; try (vm_compute in E; discriminate E).
  exists (a :: b :: l3), a, b, l3.
  destruct (evolucao_ordem producao_mensal_exemplo retidos_mensal_exemplo "Linha 6"
              (Fin (Q2Qc (1 # 2))) (a :: b :: l3) [] [] l3 a b E) as [H _].
  - reflexivity.
  - repeat apply conj; [reflexivity | reflexivity | exact H].
Defined.

(** *** Files without a date column *)

Lemma chave_prod_Some (r : prod_row) (l e : string) :
  bool_decide (chave_prod r = Some (l, e)) =
  String.eqb (pr_Linha r) l && bool_decide (pr_Equipe r = Some e).
Proof.
  unfold chave_prod. destruct (pr_Equipe r) as [e'|];
    destruct (String.eqb_spec (pr_Linha r) l); simpl;
    repeat case_bool_decide; try reflexivity; congruence.
Qed.

Lemma chave_ret_Some (r : ret_row) (l e : string) :
  bool_decide (chave_ret r = Some (l, e)) =
  String.eqb (rr_Linha r) l && bool_decide (rr_Equipe r = Some e).
Proof.
  unfold chave_ret. destruct (rr_Equipe r) as [e'|];
    destruct (String.eqb_spec (rr_Linha r) l); simpl;
    repeat case_bool_decide; try reflexivity; congruence.
Qed.

Lemma producao_sem_data_equipe (df_prod : list prod_row) (nome_linha e : string) :
  producao_da_equipe e
    (producao_do_mes (producao_sem_data df_prod) nome_linha sem_data) =
  producao_sem_data (grupo chave_prod df_prod (nome_linha, e)).
Proof.
  unfold producao_da_equipe, producao_do_mes, producao_sem_data, grupo.
  rewrite filter_filter, filter_map_comm. f_equal.
  apply List.filter_ext. intros r. cbn [pm_linha pm_mes_ano].
  rewrite chave_prod_Some, bool_decide_eq_true_2 by reflexivity.
  now rewrite andb_true_r.
Qed.

Lemma retidos_sem_data_equipe (df_ret : list ret_row) (nome_linha e : string) :
  retidos_da_equipe e (retidos_do_mes (retidos_sem_data df_ret) nome_linha sem_data) =
  retidos_sem_data (grupo chave_ret df_ret (nome_linha, e)).
Proof.
  unfold retidos_da_equipe, retidos_do_mes, retidos_sem_data, grupo.
  rewrite filter_filter, filter_map_comm. f_equal.
  apply List.filter_ext. intros r. cbn [rm_linha rm_mes_ano].
  rewrite chave_ret_Some, bool_decide_eq_true_2 by reflexivity.
  now rewrite andb_true_r.
Qed.

Lemma evolucao_do_painel_sem_data (cfg : config) (df_prod : list prod_mes)
  (df_ret : list ret_row) (nome_linha : string) :
  evolucao_do_painel cfg df_prod (retidos_sem_data df_ret) nome_linha =
  criar_grafico_evolucao_com_geral df_prod
    (retidos_sem_data (filtrar_motivos (motivos_excluir cfg) df_ret)) nome_linha
    (META_PCT cfg).
Proof.
  unfold evolucao_do_painel, filtrar_motivos, retidos_sem_data.
  destruct (motivos_excluir cfg); [reflexivity |].
  now rewrite filter_map_comm.
Qed.

Lemma evolucao_com_producao (df_prod : list prod_mes) (df_ret : list ret_mes)
  (nome_linha : string) (meta_pct : pyfloat) (x : prod_mes) :
  In x df_prod -> pr_Linha (pm_linha x) = nome_linha ->
  exists tabela,
    criar_grafico_evolucao_com_geral df_prod df_ret nome_linha meta_pct = Some tabela.
Proof.
  intros Hx Hl. unfold criar_grafico_evolucao_com_geral.
  assert (Hf : In x (List.filter
                       (fun r => String.eqb (pr_Linha (pm_linha r)) nome_linha) df_prod)).
  { apply filter_In. split; [exact Hx |]. rewrite Hl. apply String.eqb_refl. }
  destruct (List.filter _ df_prod); [destruct Hf |]. eexists. reflexivity.
Qed.

(** X21: when neither file has a date column, every team row of the
    summary (a team not named 'Média Geral') has exactly one bar in the
    evolution chart of its line, in the single period 'Sem Data', and the
    bar shows the produced quantity, the retained quantity and the target of
    that summary row. *)
Theorem evolucao_sem_data_resumo (cfg : config) (df_prod : list prod_row)
  (df_ret : list ret_row) (r : agg_row) :
  In r (pn_df_final (calcular_painel cfg df_prod df_ret)) ->
  Equipe r <> media_geral ->
  exists tabela b,
    evolucao_do_painel cfg (producao_sem_data df_prod) (retidos_sem_data df_ret)
      (Linha r) = Some tabela
    /\ List.filter (fun x => bool_decide (ev_chave x = (sem_data, Equipe r))) tabela
       = [b]
    /\ ev_M2_Produzido b = M2_Produzido r
    /\ ev_M2_Retido b = M2_Retido r
    /\ ev_Meta_M2 b = Meta_M2 r.
Proof.
  intros Hin Hne. cbn [pn_df_final calcular_painel] in Hin.
  set (df_ret_filtrado := filtrar_motivos (motivos_excluir cfg) df_ret) in *.
  rewrite evolucao_do_painel_sem_data. fold df_ret_filtrado.
  unfold calcular_df_final in Hin. apply in_map_iff in Hin as [p [Hr Hp]].
  assert (Hret := linha_final_retido (META_PCT cfg) df_ret_filtrado p).
  rewrite Hr in Hret.
  unfold prod_agg, groupby_sum in Hp. apply in_map_iff in Hp as [[l e] [Hp Hk]].
  subst p. cbn [fst] in Hret.
  assert (Hl : Linha r = l) by now subst r.
  assert (He : Equipe r = e) by now subst r.
  assert (Hprod : M2_Produzido r =
                  fillna0 (fsum (map pr_metragem_real (grupo chave_prod df_prod (l, e)))))
    by now subst r.
  assert (Hmeta : Meta_M2 r = fmul (M2_Produzido r) (fdiv (META_PCT cfg) hundred))
    by now subst r.
  rewrite Hl, He in *. clear Hr.
  apply chaves_In in Hk as [x [Hx Hkx]].
  assert (Hg : In x (grupo chave_prod df_prod (l, e))).
  { apply filter_In. split; [exact Hx |]. now apply bool_decide_eq_true. }
  assert (Hxl : pr_Linha x = l).
  { unfold chave_prod in Hkx. destruct (pr_Equipe x); [| discriminate]. congruence. }
  destruct (evolucao_com_producao (producao_sem_data df_prod)
              (retidos_sem_data df_ret_filtrado) l (META_PCT cfg)
              {| pm_linha := x; pm_mes_ano := Some sem_data |})
    as [tabela E];
    [exact (in_map (fun r => {| pm_linha := r; pm_mes_ano := Some sem_data |})
              df_prod x Hx)
    | exact Hxl |].
  exists tabela, (barra (META_PCT cfg) sem_data e (M2_Produzido r) (M2_Retido r)).
  split; [exact E |].
  rewrite (evolucao_por_chave _ _ _ _ _ (sem_data, e) E), valores_p, valores_r.
  apply String.eqb_neq in Hne. rewrite Hne, !app_nil_r.
  rewrite grupo_producao_equipe, grupo_retidos_equipe.
  rewrite producao_sem_data_equipe, retidos_sem_data_equipe.
  rewrite Hmeta, Hprod, Hret.
  destruct (grupo chave_prod df_prod (l, e)) as [|y ys]; [destruct Hg |].
  destruct (grupo chave_ret df_ret_filtrado (l, e)) as [|z zs];
    cbn [producao_sem_data retidos_sem_data map ou_nan flat_map app];
    rewrite !map_map; cbn [pm_linha rm_linha];
    (split; [reflexivity |]); repeat apply conj; reflexivity.
Qed.

Lemma evolucao_sem_data_resumo_witness :
  exists r tabela b,
    In r (pn_df_final (calcular_painel config_exemplo producao_exemplo retidos_exemplo))
    /\ evolucao_do_painel config_exemplo (producao_sem_data producao_exemplo)
         (retidos_sem_data retidos_exemplo) (Linha r) = Some tabela
    /\ List.filter (fun x => bool_decide (ev_chave x = (sem_data, Equipe r))) tabela
       = [b]
    /\ ev_M2_Retido b = M2_Retido r.
Proof.
  destruct (pn_df_final (calcular_painel config_exemplo producao_exemplo
                           retidos_exemplo)) as [|r rs] eqn:E;
    [vm_compute in E; discriminate E |].
  assert (Hin : In r (pn_df_final (calcular_painel config_exemplo producao_exemplo
                                     retidos_exemplo)))
    by (rewrite E; now left).
  assert (Hr : r = nth 0 (pn_df_final (calcular_painel config_exemplo producao_exemplo
                                         retidos_exemplo)) r)
    by (rewrite E; reflexivity).
  destruct (evolucao_sem_data_resumo config_exemplo producao_exemplo retidos_exemplo
              r Hin) as [tabela [b [H1 [H2 [_ [H3 _]]]]]].
  - rewrite Hr. vm_compute. discriminate.
  - exists r, tabela, b.
    repeat apply conj; [now left | exact H1 | exact H2 | exact H3].
Defined.

(** ** The overall row and the rows of the files *)






(** ** The sidebar and the script *)






(** ** Groups of reasons *)





Lemma dict_del_set (k : string) (v : list string) (d : grupos) :
  dict_del k (dict_set k v d) = dict_del k d.
Proof.
  unfold dict_del. induction d as [|[k' v'] r IH]; cbn [dict_set List.filter fst].
  - now rewrite String.eqb_refl.
  - destruct (String.eqb k' k) eqn:E; cbn [List.filter fst negb].
    + now rewrite String.eqb_refl.
    + rewrite E. cbn [negb]. now rewrite IH.
Qed.

Lemma dict_del_ausente (k : string) (d : grupos) :
  ~ In k (map fst d) -> dict_del k d = d.
Proof.
  intros Hn. unfold dict_del. apply filter_todos. intros [k' v] Hin.
  cbn [fst]. apply negb_true_iff, String.eqb_neq. intros Hk. apply Hn.
  apply in_map_iff. exists (k', v). split; [exact Hk | exact Hin].
Qed.

(** X24: saving a group under a name that is not in use and then removing
    it leaves the groups, and with them the cause of every reason, as they
    were; saving with an empty name or an empty selection changes
    nothing. *)
Theorem salvar_e_remover (selecao : list string) (nome : string)
  (grupos_dict : grupos) (botao : bool) (m : option string) :
  ~ In nome (map fst grupos_dict) ->
  remover_grupos [nome] (salvar_grupo botao selecao nome grupos_dict) = grupos_dict
  /\ definir_motivo
       (remover_grupos [nome] (salvar_grupo botao selecao nome grupos_dict)) m =
     definir_motivo grupos_dict m
  /\ salvar_grupo botao [] nome grupos_dict = grupos_dict
  /\ salvar_grupo botao selecao "" grupos_dict = grupos_dict.
Proof.
  intros Hn.
  assert (H : remover_grupos [nome] (salvar_grupo botao selecao nome grupos_dict)
              = grupos_dict).
  { unfold remover_grupos, salvar_grupo. cbn [foldl].
    destruct (botao && negb (bool_decide (selecao = [])) && negb (String.eqb nome ""));
      [rewrite dict_del_set |]; now apply dict_del_ausente. }
  repeat apply conj.
  - exact H.
  - now rewrite H.
  - unfold salvar_grupo. rewrite bool_decide_eq_true_2 by reflexivity.
    now rewrite andb_false_r.
  - unfold salvar_grupo. cbn [String.eqb negb]. now rewrite andb_false_r.
Qed.

Lemma salvar_e_remover_witness :
  remover_grupos ["Defeitos"]
    (salvar_grupo true ["Trinca"; "Bolha"] "Defeitos" [("Outros", ["Mancha"])]) =
  [("Outros", ["Mancha"])].
Proof.
  apply (salvar_e_remover ["Trinca"; "Bolha"] "Defeitos" [("Outros", ["Mancha"])]
           true None).
  simpl. intros [H | []]. discriminate H.
Defined.

(** ** The bars of the performance charts *)

(** X25: a bar of the performance charts is never drawn in the fallback
    colour: every row of the table has one of the two statuses of the colour
    map, and its bar is green exactly when its percentage is at most the
    target. *)
Theorem cor_da_barra_status (META_PCT : pyfloat) (df_final : list agg_row)
  (r : tab_row) :
  In r (calcular_df_tabela_final META_PCT df_final) ->
  cor_da_barra r =
    (if fleb (Pct_Realizado (t_dados r)) META_PCT then verde else vermelho)
  /\ cor_da_barra r <> "#333".
Proof.
  intros Hin. unfold calcular_df_tabela_final in Hin.
  assert (Hs : t_Status r = definir_status_meta META_PCT (Pct_Realizado (t_dados r))).
  { apply in_app_or in Hin as [Hin | Hin];
      apply in_map_iff in Hin as [g [<- _]]; reflexivity. }
  unfold cor_da_barra. rewrite Hs. unfold definir_status_meta.
  destruct (fleb (Pct_Realizado (t_dados r)) META_PCT);
    split; vm_compute; congruence.
Qed.

Lemma cor_da_barra_status_witness :
  exists r,
    In r (calcular_df_tabela_final (Fin (Q2Qc (1 # 2)))
            (calcular_df_final (Fin (Q2Qc (1 # 2))) producao_exemplo retidos_exemplo))
    /\ cor_da_barra r <> "#333".
Proof.
  destruct (calcular_df_tabela_final (Fin (Q2Qc (1 # 2)))
              (calcular_df_final (Fin (Q2Qc (1 # 2))) producao_exemplo retidos_exemplo))
    as [|r l] eqn:E; [vm_compute in E; discriminate E |].
  exists r. split; [now left |].
  apply (cor_da_barra_status (Fin (Q2Qc (1 # 2)))
           (calcular_df_final (Fin (Q2Qc (1 # 2))) producao_exemplo retidos_exemplo) r).
  rewrite E. now left.
Defined.

(** ** Rows without a reason *)


